(** * MovieDAO (api/dao/movies.py): a shallow embedding and its properties

    The DAO wraps a Neo4j driver.  Its Python code is embedded as functions
    in a small monad that records the statements handed to the transaction;
    the three Cypher statements it contains are given their meaning over a
    property graph (module [Neo4j] below). *)

From stdpp Require Import gmap strings list sorting.
From Stdlib Require Import ZArith Ascii.

Local Open Scope string_scope.
Local Open Scope list_scope.

(** ** Python values *)

(** What the DAO receives from the driver and hands back to its caller:
    [None], booleans, integers, strings, lists and dicts. *)
#[warnings="-register-all"]
Inductive pyobj :=
  | PNone
  | PBool (b : bool)
  | PInt (z : Z)
  | PStr (s : string)
  | PList (l : list pyobj)
  | PDict (d : gmap string pyobj).

(** [o.get(key)] on a dict: [None] when the key is missing. *)
Definition py_get (key : string) (o : pyobj) : pyobj :=
  match o with
  | PDict d => default PNone (d !! key)
  | _ => PNone
  end.

(** A [neo4j.Record]: the named columns of one result row, in order. *)
Definition Record := list (string * pyobj).

(** [Record.get(key, default=None)]. *)
Fixpoint record_get (r : Record) (key : string) : pyobj :=
  match r with
  | [] => PNone
  | (k, v) :: r' => if String.eqb k key then v else record_get r' key
  end.

(** [Record.value(key, default=None)] with a column name. *)
Definition record_value (r : Record) (key : string) : pyobj := record_get r key.

(** [Record.value(i, default=None)] with a column index. *)
Definition record_value_at (r : Record) (i : nat) : pyobj :=
  match r !! i with
  | Some (_, v) => v
  | None => PNone
  end.

(** ** [str.format] with positional fields *)

Definition digit_of (c : ascii) : option nat :=
  let n := nat_of_ascii c in
  if bool_decide (48 ≤ n ≤ 57)%nat then Some (n - 48)%nat else None.

(** [tpl.format(a0, a1, ...)] for templates whose replacement fields are [{d}]
    with one digit; doubled braces stand for a brace.  [None] is the
    exception Python raises (a lone brace, a field of another shape, an
    index past the arguments). *)
Fixpoint format (tpl : string) (args : list string) : option string :=
  match tpl with
  | EmptyString => Some EmptyString
  | String c rest =>
      if Ascii.eqb c "{" then
        match rest with
        | String c1 rest1 =>
            if Ascii.eqb c1 "{" then String "{" <$> format rest1 args
            else
              match rest1 with
              | String c2 rest2 =>
                  if Ascii.eqb c2 "}" then
                    match digit_of c1 with
                    | Some i =>
                        match args !! i with
                        | Some a => String.append a <$> format rest2 args
                        | None => None
                        end
                    | None => None
                    end
                  else None
              | EmptyString => None
              end
        | EmptyString => None
        end
      else if Ascii.eqb c "}" then
        match rest with
        | String c1 rest1 =>
            if Ascii.eqb c1 "}" then String "}" <$> format rest1 args else None
        | EmptyString => None
        end
      else String c <$> format rest args
  end.

(** ** Slices *)

(** How Python places one bound of [l[start:stop]] in a list of length [n]:
    a negative bound counts from the end, and the result is clamped to
    [0..n]. *)
Definition slice_bound (n i : Z) : Z :=
  if (i <? 0)%Z then Z.max (i + n)%Z 0%Z else Z.min i n.

(** [l[start:stop]]. *)
Definition py_slice {A} (l : list A) (start stop : Z) : list A :=
  let n := Z.of_nat (length l) in
  let lo := slice_bound n start in
  let hi := slice_bound n stop in
  take (Z.to_nat (hi - lo)%Z) (drop (Z.to_nat lo) l).

(** ** The driver as the DAO uses it *)

(** Keyword arguments of [tx.run]. *)
Definition kwargs := list (string * pyobj).

(** A statement handed to [tx.run]. *)
Record Stmt := mkStmt { stmt_text : string; stmt_args : kwargs }.

(** Exceptions that can leave a DAO method. *)
Inductive exn :=
  | CypherError (msg : string)   (* raised by the database for a statement *)
  | FormatError.                 (* raised by [str.format] *)

Inductive outcome (A : Type) :=
  | Returned (a : A)
  | Raised (e : exn).
Arguments Returned {A} a.
Arguments Raised {A} e.

(** A read transaction: what [tx.run(text, **kwargs)] answers. *)
Definition Tx := string → kwargs → outcome (list Record).

(** The driver: [driver.session()] then [session.execute_read(work, ...)]
    calls [work] with a transaction of the session. *)
Record Driver := mkDriver { session_tx : Tx }.

(** Computations of the DAO: they extend the log of statements run so far
    and return a value or raise. *)
Definition M (A : Type) := list Stmt → outcome A * list Stmt.

Definition ret {A} (a : A) : M A := λ log, (Returned a, log).

Definition raise {A} (e : exn) : M A := λ log, (Raised e, log).

Definition bind {A B} (k : A → M B) (m : M A) : M B :=
  λ log,
    match m log with
    | (Returned a, log') => k a log'
    | (Raised e, log') => (Raised e, log')
    end.

(** The notation [x ← m; k] is stdpp's, at these instances. *)
#[global] Instance M_ret : MRet M := @ret.
#[global] Instance M_bind : MBind M := @bind.

(** [tx.run(text, **args)]. *)
Definition tx_run (tx : Tx) (text : string) (args : kwargs) : M (list Record) :=
  λ log, (tx text args, log ++ [mkStmt text args]).

(** [with self.driver.session() as session: return session.execute_read(work, ...)]:
    the unit of work runs once, on a transaction of the session (the
    driver's retries after a transient failure are left out). *)
Definition execute_read {A} (driver : Driver) (work : Tx → M A) : M A :=
  work (session_tx driver).

(** Runs a method from an empty log. *)
Definition call {A} (m : M A) : outcome A * list Stmt := m [].

(** A call that is refused before any statement reaches the database: it
    raises, and its log is empty. *)
Definition rejected_before_query {A} (r : outcome A * list Stmt) : Prop :=
  (∃ e, r.1 = Raised e) ∧ r.2 = [].

(** A transaction that accepts every statement and finds no row. *)
Definition accepting_tx : Tx := λ _ _, Returned [].

(** A transaction on which every statement fails. *)
Definition failing_tx : Tx := λ _ _, Raised (CypherError "database unavailable").

(** ** The statements of the DAO *)

(** The template of [get_movies] in [MovieDAO.all], before [.format(sort, order)]. *)
Definition MOVIES_TEMPLATE : string := "
                MATCH (m:Movie)
                WHERE exists(m.`{0}`)
                RETURN m {{
                    .*,
                    favorite: m.tmdbId IN $favorites
                }} AS movie
                ORDER BY m.`{0}` {1}
                SKIP $skip
                LIMIT $limit
            ".

(** The statement of the unit of work nested in [get_by_genre]. *)
Definition GENRES_CYPHER : string := "
                    MATCH (g:Genre)
                    WHERE g.name <> '(no genres listed)'
                    CALL {
                        WITH g
                        MATCH (g)<-[:IN_GENRE]-(m:Movie)
                        WHERE m.imdbRating IS NOT NULL AND m.poster IS NOT NULL
                        RETURN m.poster AS poster
                        ORDER BY m.imdbRating DESC LIMIT 1
                    }
                    RETURN g {
                        .*,
                        movies: size((g)<-[:IN_GENRE]-(:Movie)),
                        poster: poster
                    } AS genre
                    ORDER BY g.name ASC
                ".

(** The statement of [get_user_favorites]. *)
Definition FAVORITES_CYPHER : string := "
            MATCH (u:User {userId: $userId})-[:HAS_FAVORITE]->(m)
            RETURN m.tmdbId AS id
        ".

(** The template up to its first replacement field. *)
Definition MOVIES_HEAD : string := "
                MATCH (m:Movie)
                WHERE exists(m.`".

(** The rest of the template, between and after its replacement fields,
    with the doubled braces read as [str.format] reads them. *)
Definition MOVIES_MID : string := "`)
                RETURN m {
                    .*,
                    favorite: m.tmdbId IN $favorites
                } AS movie
                ORDER BY m.`".

Definition MOVIES_SEP : string := "` ".

Definition MOVIES_TAIL : string := "
                SKIP $skip
                LIMIT $limit
            ".

(** The text [MOVIES_TEMPLATE.format(sort, order)] comes to. *)
Definition movies_text (sort order : string) : string :=
  MOVIES_HEAD +:+ sort +:+ MOVIES_MID +:+ sort +:+ MOVIES_SEP +:+ order +:+ MOVIES_TAIL.

(** ** A property graph and the meaning of the three statements *)

Module Neo4j.

(** Values a node can store in a property. *)
Inductive scalar :=
  | SBool (b : bool)
  | SInt (z : Z)
  | SStr (s : string).

#[global] Instance scalar_eq_dec : EqDecision scalar.
Proof. solve_decision. Defined.

(** A Cypher value that may be [null]: a missing property reads as [null]. *)
Abbreviation value := (option scalar).

Record node := mkNode {
  nid : nat;
  labels : list string;
  props : gmap string scalar
}.

Record rel := mkRel {
  rsrc : nat;
  rtype : string;
  rdst : nat
}.

Record graph := mkGraph {
  nodes : list node;
  rels : list rel
}.

(** How the driver hands a Cypher value to Python. *)
Definition to_py (s : scalar) : pyobj :=
  match s with
  | SBool b => PBool b
  | SInt z => PInt z
  | SStr s => PStr s
  end.

Definition value_to_py (v : value) : pyobj :=
  match v with
  | Some s => to_py s
  | None => PNone
  end.

(** A three-valued truth value as Python sees it. *)
Definition tri_to_py (t : option bool) : pyobj :=
  match t with
  | Some b => PBool b
  | None => PNone
  end.

(** [a = b] for a stored scalar and a parameter: [null] when the parameter
    is [null], false across types. *)
Definition cy_eq (a : scalar) (b : pyobj) : option bool :=
  match b with
  | PNone => None
  | PBool y => Some (bool_decide (a = SBool y))
  | PInt y => Some (bool_decide (a = SInt y))
  | PStr y => Some (bool_decide (a = SStr y))
  | PList _ | PDict _ => Some false
  end.

(** [x IN l]: false on the empty list; [null] when [x] is [null] and the
    list is not empty; true when some element equals [x]; otherwise [null]
    if some comparison was [null], and false if none was. *)
Definition cy_in (x : value) (l : list pyobj) : option bool :=
  match l, x with
  | [], _ => Some false
  | _ :: _, None => None
  | _ :: _, Some a =>
      if existsb (λ b, bool_decide (cy_eq a b = Some true)) l then Some true
      else if existsb (λ b, bool_decide (cy_eq a b = None)) l then None
      else Some false
  end.

(** A Python value read back as a Cypher value; lists and dicts, which no
    node stores, read as [null]. *)
Definition of_py (o : pyobj) : value :=
  match o with
  | PBool b => Some (SBool b)
  | PInt z => Some (SInt z)
  | PStr s => Some (SStr s)
  | PNone | PList _ | PDict _ => None
  end.

(** The field [key] of a returned record, as a Cypher value. *)
Definition field (key : string) (record : pyobj) : value := of_py (py_get key record).

Definition has_label (l : string) (n : node) : Prop := l ∈ labels n.

#[global] Instance has_label_dec l n : Decision (has_label l n).
Proof. unfold has_label. apply _. Defined.

(** [m.key]. *)
Definition prop (key : string) (n : node) : value := props n !! key.

(** The pattern [{key: $param}] and the predicate [n.key = $param]: they
    hold when the comparison is true, not when it is false or [null]. *)
Definition prop_equals (key : string) (param : pyobj) (n : node) : bool :=
  match prop key n with
  | Some a => bool_decide (cy_eq a param = Some true)
  | None => false
  end.

(** The node [m] is at the end of a [HAS_FAVORITE] relationship that starts
    at a [User] node whose [userId] equals [userId]. *)
Definition has_favorite (g : graph) (userId : pyobj) (m : node) : Prop :=
  ∃ u r, u ∈ nodes g ∧ has_label "User" u ∧ prop_equals "userId" userId u ∧
         r ∈ rels g ∧ rsrc r = nid u ∧ rtype r = "HAS_FAVORITE" ∧
         m ∈ nodes g ∧ nid m = rdst r.

(** The movie [m] belongs to the genre node [genre]. *)
Definition in_genre (g : graph) (genre m : node) : Prop :=
  ∃ r, r ∈ rels g ∧ rdst r = nid genre ∧ rtype r = "IN_GENRE" ∧
       m ∈ nodes g ∧ nid m = rsrc r ∧ has_label "Movie" m.

(** A member of the genre that has both a rating and a poster. *)
Definition rated_member (g : graph) (genre m : node) : Prop :=
  in_genre g genre m ∧ is_Some (prop "imdbRating" m) ∧ is_Some (prop "poster" m).

(** The data model's identity of movies: every [Movie] node has a [tmdbId],
    and no two of them have the same. *)
Definition movies_identified (g : graph) : Prop :=
  Forall (λ m, has_label "Movie" m → is_Some (prop "tmdbId" m)) (nodes g).

Definition tmdbId_unique (g : graph) : Prop :=
  NoDup (prop "tmdbId" <$> filter (has_label "Movie") (nodes g)).

(** What a user can mark as a favorite has a [tmdbId]. *)
Definition favorites_identified (g : graph) : Prop :=
  Forall (λ r, rtype r = "HAS_FAVORITE" →
               Forall (λ m, nid m = rdst r → is_Some (prop "tmdbId" m)) (nodes g))
         (rels g).

#[global] Instance movies_identified_dec g : Decision (movies_identified g).
Proof. unfold movies_identified. apply _. Defined.
#[global] Instance tmdbId_unique_dec g : Decision (tmdbId_unique g).
Proof. unfold tmdbId_unique. apply _. Defined.
#[global] Instance favorites_identified_dec g : Decision (favorites_identified g).
Proof. unfold favorites_identified. apply _. Defined.

Section statements.
(** Cypher's order on stored values, used by [ORDER BY]. *)
Context (vle : scalar → scalar → bool).

(** [ORDER BY] places [null] after every value. *)
Definition value_le (a b : value) : bool :=
  match a, b with
  | _, None => true
  | None, Some _ => false
  | Some x, Some y => vle x y
  end.

(** [x] may come before [y] under [ORDER BY key ASC]. *)
Definition asc {A} (key : A → value) (x y : A) : Prop :=
  value_le (key x) (key y).

(** [x] may come before [y] under [ORDER BY key DESC]. *)
Definition desc {A} (key : A → value) (x y : A) : Prop :=
  value_le (key y) (key x).

#[global] Instance asc_dec {A} (key : A → value) x y : Decision (asc key x y).
Proof. unfold asc. apply _. Defined.
#[global] Instance desc_dec {A} (key : A → value) x y : Decision (desc key x y).
Proof. unfold desc. apply _. Defined.

(** [ORDER BY key ASC] and [ORDER BY key DESC] over the rows [l].  Cypher
    leaves the order of rows with equal keys open; this fixes one. *)
Definition order_by {A} (key : A → value) (descending : bool) (l : list A) : list A :=
  if descending then merge_sort (desc key) l else merge_sort (asc key) l.

(** [m { .*, favorite: m.tmdbId IN $favorites }]. *)
Definition movie_projection (favorites : list pyobj) (m : node) : pyobj :=
  PDict (<["favorite" := tri_to_py (cy_in (prop "tmdbId" m) favorites)]>
           (to_py <$> props m)).

(** The rows of the statement [MOVIES_TEMPLATE.format(sort, order)]:
    [MATCH (m:Movie) WHERE exists(m.sort)], then [ORDER BY], [SKIP] and
    [LIMIT], each row with the one column [movie]. *)
Definition movies_rows (g : graph) (sort : string) (descending : bool)
    (favorites : list pyobj) (skip limit : nat) : list Record :=
  let matched :=
    filter (λ m, has_label "Movie" m ∧ is_Some (prop sort m)) (nodes g) in
  (λ m, [("movie", movie_projection favorites m)]) <$>
    take limit (drop skip (order_by (prop sort) descending matched)).

(** The rows of [FAVORITES_CYPHER]:
    [MATCH (u:User {userId: $userId})-[:HAS_FAVORITE]->(m) RETURN m.tmdbId AS id]. *)
Definition favorites_rows (g : graph) (userId : pyobj) : list Record :=
  u ← filter (λ u, has_label "User" u ∧ prop_equals "userId" userId u) (nodes g);
  r ← filter (λ r, rsrc r = nid u ∧ rtype r = "HAS_FAVORITE") (rels g);
  m ← filter (λ m, nid m = rdst r) (nodes g);
  [[("id", value_to_py (prop "tmdbId" m))]].

(** The matches of [(g)<-[:IN_GENRE]-(m:Movie)] for a genre node. *)
Definition genre_members (g : graph) (genre : node) : list node :=
  r ← filter (λ r, rdst r = nid genre ∧ rtype r = "IN_GENRE") (rels g);
  filter (λ m, nid m = rsrc r ∧ has_label "Movie" m) (nodes g).

(** The rows of the [CALL] subquery for one genre: the members with a
    rating and a poster, highest rating first, cut to one row. *)
Definition genre_poster_rows (g : graph) (genre : node) : list node :=
  take 1 (order_by (prop "imdbRating") true
            (filter (λ m, is_Some (prop "imdbRating" m) ∧ is_Some (prop "poster" m))
                    (genre_members g genre))).

(** [g { .*, movies: size(...), poster: poster }]. *)
Definition genre_projection (g : graph) (genre m : node) : pyobj :=
  PDict (<["poster" := value_to_py (prop "poster" m)]>
           (<["movies" := PInt (Z.of_nat (length (genre_members g genre)))]>
              (to_py <$> props genre))).

(** The genre nodes the outer [MATCH ... WHERE g.name <> '(no genres listed)']
    keeps: a missing name makes the comparison [null], which [WHERE] drops. *)
Definition genre_kept (genre : node) : Prop :=
  has_label "Genre" genre ∧
  is_Some (prop "name" genre) ∧
  prop "name" genre ≠ Some (SStr "(no genres listed)").

#[global] Instance genre_kept_dec genre : Decision (genre_kept genre).
Proof. unfold genre_kept. apply _. Defined.

(** The rows of [GENRES_CYPHER]: a kept genre gives one row per row of its
    subquery (none when the subquery is empty), ordered by name. *)
Definition genres_rows (g : graph) : list Record :=
  let joined :=
    genre ← filter genre_kept (nodes g);
    m ← genre_poster_rows g genre;
    [(genre, m)] in
  (λ gm, [("genre", genre_projection g gm.1 gm.2)]) <$>
    order_by (λ gm, prop "name" gm.1) false joined.

(** *** Recognising the statements *)

Fixpoint strip_prefix (p s : string) : option string :=
  match p, s with
  | EmptyString, _ => Some s
  | String a p', String b s' => if Ascii.eqb a b then strip_prefix p' s' else None
  | String _ _, EmptyString => None
  end.

(** The text before the first backtick. *)
Fixpoint until_backtick (s : string) : string :=
  match s with
  | EmptyString => EmptyString
  | String c s' => if Ascii.eqb c "`" then EmptyString else String c (until_backtick s')
  end.

Fixpoint no_backtick (s : string) : bool :=
  match s with
  | EmptyString => true
  | String c s' => negb (Ascii.eqb c "`") && no_backtick s'
  end.

(** The direction [ORDER BY] takes for the two accepted words. *)
Definition descending (order : string) : bool := String.eqb order "DESC".

(** Reads [(sort, descending)] back from a text that is the template
    filled with a backtick-free [sort] and with [ASC] or [DESC]. *)
Definition parse_movies (text : string) : option (string * bool) :=
  match strip_prefix MOVIES_HEAD text with
  | Some rest =>
      let sort := until_backtick rest in
      if bool_decide (format MOVIES_TEMPLATE [sort; "ASC"] = Some text)
      then Some (sort, false)
      else if bool_decide (format MOVIES_TEMPLATE [sort; "DESC"] = Some text)
      then Some (sort, true)
      else None
  | None => None
  end.

Fixpoint get_arg (args : kwargs) (key : string) : option pyobj :=
  match args with
  | [] => None
  | (k, v) :: args' => if String.eqb k key then Some v else get_arg args' key
  end.

(** A read transaction on the graph [g].  It answers the three statements
    of the DAO; [SKIP] and [LIMIT] want non-negative integers; any other
    text is outside this model and is answered with an error. *)
Definition graph_tx (g : graph) : Tx := λ text args,
  if String.eqb text FAVORITES_CYPHER then
    match get_arg args "userId" with
    | Some userId => Returned (favorites_rows g userId)
    | None => Raised (CypherError "expected parameter userId")
    end
  else if String.eqb text GENRES_CYPHER then Returned (genres_rows g)
  else
    match parse_movies text with
    | Some (sort, descending) =>
        match get_arg args "favorites", get_arg args "skip", get_arg args "limit" with
        | Some (PList favorites), Some (PInt skip), Some (PInt limit) =>
            if bool_decide (0 ≤ skip ∧ 0 ≤ limit)%Z then
              Returned (movies_rows g sort descending favorites
                          (Z.to_nat skip) (Z.to_nat limit))
            else Raised (CypherError "SKIP and LIMIT must be non-negative")
        | _, _, _ => Raised (CypherError "parameter missing or of the wrong type")
        end
    | None => Raised (CypherError "statement outside the model")
    end.
End statements.

End Neo4j.

(** ** The DAO *)

Module MovieDAO.

Section dao.
(** [from api.data import popular, goodfellas]: the sample data, which
    the DAO only passes on. *)
Variable popular : list pyobj.
Variable goodfellas : pyobj.

(** [self.driver]. *)
Variable driver : Driver.

(** [get_user_favorites(self, tx, user_id)]. *)
Definition get_user_favorites (tx : Tx) (user_id : pyobj) : M (list pyobj) :=
  match user_id with
  | PNone => mret []
  | _ =>
      result ← tx_run tx FAVORITES_CYPHER [("userId", user_id)];
      mret ((λ record, record_get record "id") <$> result)
  end.

(** The unit of work [get_movies] of [all]. *)
Definition get_movies (tx : Tx) (sort order : string) (limit skip : Z)
    (user_id : pyobj) : M (list pyobj) :=
  favorites ← get_user_favorites tx user_id;
  match format MOVIES_TEMPLATE [sort; order] with
  | None => raise FormatError
  | Some cypher =>
      result ← tx_run tx cypher
                 [("limit", PInt limit); ("skip", PInt skip);
                  ("user_id", user_id); ("favorites", PList favorites)];
      mret ((λ row, record_value row "movie") <$> result)
  end.

(** [all(self, sort, order, limit=6, skip=0, user_id=os.environ.get("USER_ID"))]. *)
Definition all (sort order : string) (limit skip : Z) (user_id : pyobj)
    : M (list pyobj) :=
  execute_read driver (λ tx, get_movies tx sort order limit skip user_id).

(** The function [all] nested in [get_by_genre], with its unit of work. *)
Definition get_by_genre_all : M (list pyobj) :=
  let get_movies (tx : Tx) : M (list pyobj) :=
    result ← tx_run tx GENRES_CYPHER [];
    mret ((λ g, record_value_at g 0) <$> result) in
  execute_read driver get_movies.

(** [get_by_genre(self, name, sort, order, limit, skip, user_id)]: its body
    is the definition of the nested function and nothing else, so the
    call falls off the end and returns [None]. *)
Definition get_by_genre (name sort order : string) (limit skip : Z)
    (user_id : pyobj) : M pyobj :=
  let all := get_by_genre_all in
  mret PNone.

(** [get_for_actor(self, id, sort, order, limit, skip, user_id)]. *)
Definition get_for_actor (id : pyobj) (sort order : string) (limit skip : Z)
    (user_id : pyobj) : M (list pyobj) :=
  mret (py_slice popular skip limit).

(** [get_for_director(self, id, sort, order, limit, skip, user_id)]. *)
Definition get_for_director (id : pyobj) (sort order : string) (limit skip : Z)
    (user_id : pyobj) : M (list pyobj) :=
  mret (py_slice popular skip limit).

(** [find_by_id(self, id, user_id)]. *)
Definition find_by_id (id : pyobj) (user_id : pyobj) : M pyobj :=
  mret goodfellas.

(** [get_similar_movies(self, id, limit, skip, user_id)]. *)
Definition get_similar_movies (id : pyobj) (limit skip : Z) (user_id : pyobj)
    : M (list pyobj) :=
  mret (py_slice popular skip limit).
End dao.

End MovieDAO.

(** ** A small graph to run the DAO on *)

Module Sample.
Import Neo4j.

(** An order on stored values: strings, then booleans, then integers. *)
Definition rank (s : scalar) : nat :=
  match s with SStr _ => 0 | SBool _ => 1 | SInt _ => 2 end.

(** Strings by code points, a shorter string before its extensions. *)
Fixpoint string_le (a b : string) : bool :=
  match a, b with
  | EmptyString, _ => true
  | String _ _, EmptyString => false
  | String x a', String y b' =>
      let n := nat_of_ascii x in
      let m := nat_of_ascii y in
      if (n <? m)%nat then true
      else if (m <? n)%nat then false
      else string_le a' b'
  end.

Definition vle (a b : scalar) : bool :=
  match a, b with
  | SStr x, SStr y => string_le x y
  | SBool x, SBool y => implb x y
  | SInt x, SInt y => (x <=? y)%Z
  | _, _ => bool_decide (rank a < rank b)
  end.

Definition movie (id : nat) (tmdb title : string) (rating : Z) : node :=
  mkNode id ["Movie"]
    (<["tmdbId" := SStr tmdb]> (<["title" := SStr title]>
      (<["imdbRating" := SInt rating]> (<["poster" := SStr ("/" +:+ tmdb)]> ∅)))).

Definition store : graph :=
  mkGraph
    [ movie 1 "769" "Goodfellas" 87;
      movie 2 "680" "Pulp Fiction" 89;
      movie 3 "13" "Forrest Gump" 88;
      mkNode 4 ["Movie"] (<["tmdbId" := SStr "999"]> (<["title" := SStr "Untitled"]> ∅));
      mkNode 5 ["Movie"]
        (<["tmdbId" := SStr "278"]> (<["title" := SStr "The Shawshank Redemption"]>
          (<["imdbRating" := SInt 93]> ∅)));
      mkNode 10 ["Genre"] (<["name" := SStr "Crime"]> ∅);
      mkNode 11 ["Genre"] (<["name" := SStr "Drama"]> ∅);
      mkNode 12 ["Genre"] (<["name" := SStr "(no genres listed)"]> ∅);
      mkNode 13 ["Genre"] (<["name" := SStr "Western"]> ∅);
      mkNode 20 ["User"] (<["userId" := SStr "u1"]> ∅) ]
    [ mkRel 1 "IN_GENRE" 10; mkRel 2 "IN_GENRE" 10; mkRel 3 "IN_GENRE" 11;
      mkRel 5 "IN_GENRE" 11;
      mkRel 4 "IN_GENRE" 12; mkRel 4 "IN_GENRE" 13;
      mkRel 20 "HAS_FAVORITE" 2; mkRel 20 "HAS_FAVORITE" 3 ].

Definition driver : Driver := mkDriver (graph_tx vle store).

(** A graph with a movie that has no [tmdbId], and a user with a favorite. *)
Definition store_without_id : graph :=
  mkGraph
    [ movie 1 "769" "Goodfellas" 87;
      mkNode 2 ["Movie"] (<["title" := SStr "Home Video"]> ∅);
      mkNode 20 ["User"] (<["userId" := SStr "u1"]> ∅) ]
    [ mkRel 20 "HAS_FAVORITE" 1 ].

End Sample.


(** * Properties *)

(** ** Strings and [str.format] *)

Lemma format_movies sort order :
  format MOVIES_TEMPLATE [sort; order] = Some (movies_text sort order).
Proof. reflexivity. Qed.

Lemma append_inv_head (p s1 s2 : string) : p +:+ s1 = p +:+ s2 → s1 = s2.
Proof. induction p as [|c p IH]; simpl; [done|]. intros [= H]. auto. Qed.

Lemma movies_text_inj_order sort o1 o2 :
  movies_text sort o1 = movies_text sort o2 → o1 +:+ MOVIES_TAIL = o2 +:+ MOVIES_TAIL.
Proof.
  unfold movies_text. intros H.
  do 5 apply append_inv_head in H. exact H.
Qed.

(** ** The transaction recognises the statements of the DAO *)

Section recognise.
Import Neo4j.
Context (vle : scalar → scalar → bool) (g : graph).

Lemma strip_prefix_app (p s : string) : strip_prefix p (p +:+ s) = Some s.
Proof.
  induction p as [|c p IH]; simpl; [by destruct s|].
  by rewrite Ascii.eqb_refl.
Qed.

Lemma until_backtick_mid (s r : string) :
  no_backtick s → until_backtick (s +:+ MOVIES_MID +:+ r) = s.
Proof.
  induction s as [|c s IH]; simpl; [done|].
  destruct (Ascii.eqb c "`"); simpl; [done|].
  intros H. by rewrite IH.
Qed.

Lemma parse_movies_asc sort :
  no_backtick sort → parse_movies (movies_text sort "ASC") = Some (sort, false).
Proof.
  intros Hs. unfold parse_movies.
  unfold movies_text at 1. rewrite strip_prefix_app.
  cbv zeta. rewrite until_backtick_mid by done.
  rewrite format_movies. by rewrite bool_decide_eq_true_2.
Qed.

Lemma parse_movies_desc sort :
  no_backtick sort → parse_movies (movies_text sort "DESC") = Some (sort, true).
Proof.
  intros Hs. unfold parse_movies.
  unfold movies_text at 1. rewrite strip_prefix_app.
  cbv zeta. rewrite until_backtick_mid by done.
  rewrite !format_movies.
  rewrite bool_decide_eq_false_2.
  - by rewrite bool_decide_eq_true_2.
  - intros H. apply (inj Some) in H.
    apply movies_text_inj_order in H. discriminate H.
Qed.

Lemma parse_movies_text sort order :
  no_backtick sort → order ∈ ["ASC"; "DESC"] →
  parse_movies (movies_text sort order) = Some (sort, descending order).
Proof.
  intros Hs Ho. set_unfold in Ho. destruct Ho as [->|[->|[]]].
  - by apply parse_movies_asc.
  - by apply parse_movies_desc.
Qed.

Lemma movies_text_not_favorites sort order :
  String.eqb (movies_text sort order) FAVORITES_CYPHER = false.
Proof. reflexivity. Qed.

Lemma movies_text_not_genres sort order :
  String.eqb (movies_text sort order) GENRES_CYPHER = false.
Proof. reflexivity. Qed.

(** On the text [all] builds from a backtick-free [sort] and [ASC] or
    [DESC], with the keyword arguments [all] passes, the transaction
    answers with the rows of the statement. *)
Lemma graph_tx_movies sort order (limit skip : Z) user_id favorites :
  no_backtick sort → order ∈ ["ASC"; "DESC"] → (0 ≤ limit)%Z → (0 ≤ skip)%Z →
  graph_tx vle g (movies_text sort order)
    [("limit", PInt limit); ("skip", PInt skip);
     ("user_id", user_id); ("favorites", PList favorites)]
  = Returned (movies_rows vle g sort (descending order) favorites
                (Z.to_nat skip) (Z.to_nat limit)).
Proof.
  intros Hs Ho Hl Hk. unfold graph_tx.
  rewrite movies_text_not_favorites, movies_text_not_genres.
  rewrite parse_movies_text by done. simpl.
  by rewrite bool_decide_eq_true_2.
Qed.

Lemma graph_tx_favorites user_id :
  graph_tx vle g FAVORITES_CYPHER [("userId", user_id)]
  = Returned (favorites_rows g user_id).
Proof. reflexivity. Qed.

Lemma graph_tx_genres :
  graph_tx vle g GENRES_CYPHER [] = Returned (genres_rows vle g).
Proof. reflexivity. Qed.
End recognise.

(** ** Ordering, projection and the result of [all] on a graph *)

Section on_graph.
Import Neo4j.
Context (vle : scalar → scalar → bool) (g : graph).

Lemma of_py_to_py s : of_py (to_py s) = Some s.
Proof. by destruct s. Qed.

Lemma of_py_value_to_py v : of_py (value_to_py v) = v.
Proof. destruct v as [s|]; [apply of_py_to_py|done]. Qed.

#[local] Instance value_to_py_inj : Inj (=) (=) value_to_py.
Proof. intros a b H. by rewrite <-(of_py_value_to_py a), H, of_py_value_to_py. Qed.

Lemma py_get_movie_projection key favorites m :
  key ≠ "favorite" →
  py_get key (movie_projection favorites m) = value_to_py (prop key m).
Proof.
  intros Hk. unfold movie_projection, py_get, prop.
  rewrite lookup_insert_ne by done. rewrite lookup_fmap.
  by destruct (props m !! key).
Qed.

Lemma py_get_favorite favorites m :
  py_get "favorite" (movie_projection favorites m)
  = tri_to_py (cy_in (prop "tmdbId" m) favorites).
Proof. unfold movie_projection, py_get. by rewrite lookup_insert_eq. Qed.

Lemma field_movie_projection key favorites m :
  key ≠ "favorite" → field key (movie_projection favorites m) = prop key m.
Proof.
  intros Hk. unfold field. rewrite py_get_movie_projection by done.
  apply of_py_value_to_py.
Qed.

Lemma order_by_perm {A} (key : A → value) d (l : list A) :
  order_by vle key d l ≡ₚ l.
Proof. destruct d; apply merge_sort_Permutation. Qed.

Lemma StronglySorted_take {A} (R : relation A) n (l : list A) :
  StronglySorted R l → StronglySorted R (take n l).
Proof.
  intros H. rewrite <-(take_drop n l) in H.
  by apply StronglySorted_app_1_l in H.
Qed.

Lemma StronglySorted_drop {A} (R : relation A) n (l : list A) :
  StronglySorted R l → StronglySorted R (drop n l).
Proof.
  intros H. rewrite <-(take_drop n l) in H.
  by apply StronglySorted_app_1_r in H.
Qed.

Lemma elem_of_favorites_rows userId (row : Record) :
  row ∈ favorites_rows g userId ↔
  ∃ m, has_favorite g userId m ∧ row = [("id", value_to_py (prop "tmdbId" m))].
Proof.
  unfold favorites_rows, has_favorite. split.
  - intros (u & (r & (m & Hrow & Hm)%list_elem_of_bind & Hr)%list_elem_of_bind & Hu)%list_elem_of_bind.
    apply list_elem_of_filter in Hu as [[? ?] ?].
    apply list_elem_of_filter in Hr as [[? ?] ?].
    apply list_elem_of_filter in Hm as [? ?].
    apply list_elem_of_singleton in Hrow.
    exists m. split; [|done]. exists u, r. done.
  - intros (m & (u & r & ? & ? & ? & ? & ? & ? & ? & ?) & ->).
    apply list_elem_of_bind. exists u. split; [|by apply list_elem_of_filter].
    apply list_elem_of_bind. exists r. split; [|by apply list_elem_of_filter].
    apply list_elem_of_bind. exists m. split; [|by apply list_elem_of_filter].
    by apply list_elem_of_singleton.
Qed.

(** [get_user_favorites] returns on the graph, whatever the user. *)
Lemma get_user_favorites_returns user_id log :
  ∃ favorites log',
    MovieDAO.get_user_favorites (graph_tx vle g) user_id log
    = (Returned favorites, log').
Proof. destruct user_id; eexists _, _; reflexivity. Qed.

(** The result of [all] on the graph, for a statement inside the model. *)
Lemma all_graph sort order limit skip user_id favorites log :
  no_backtick sort → order ∈ ["ASC"; "DESC"] → (0 ≤ limit)%Z → (0 ≤ skip)%Z →
  MovieDAO.get_user_favorites (graph_tx vle g) user_id [] = (Returned favorites, log) →
  (call (MovieDAO.all (mkDriver (graph_tx vle g)) sort order limit skip user_id)).1
  = Returned (movie_projection favorites <$>
      take (Z.to_nat limit) (drop (Z.to_nat skip)
        (order_by vle (prop sort) (descending order)
           (filter (λ m, has_label "Movie" m ∧ is_Some (prop sort m)) (nodes g))))).
Proof.
  intros Hs Ho Hl Hk Hf.
  unfold call, MovieDAO.all, execute_read, MovieDAO.get_movies. simpl session_tx.
  unfold mbind, M_bind, bind at 1. rewrite Hf.
  rewrite format_movies. unfold bind, tx_run.
  rewrite graph_tx_movies by done. simpl.
  unfold movies_rows. by rewrite <-list_fmap_compose.
Qed.

Section total_order.
Hypothesis vle_total : ∀ a b, vle a b ∨ vle b a.
Hypothesis vle_trans : ∀ a b c, vle a b → vle b c → vle a c.

Lemma value_le_total a b : value_le vle a b ∨ value_le vle b a.
Proof. destruct a, b; simpl; auto. Qed.

Lemma value_le_trans a b c :
  value_le vle a b → value_le vle b c → value_le vle a c.
Proof. destruct a, b, c; simpl; eauto; done. Qed.

#[local] Instance asc_total {A} (key : A → value) : Total (asc vle key).
Proof. intros x y. apply value_le_total. Qed.
#[local] Instance desc_total {A} (key : A → value) : Total (desc vle key).
Proof. intros x y. apply value_le_total. Qed.
#[local] Instance asc_trans {A} (key : A → value) : Transitive (asc vle key).
Proof. intros x y z. apply value_le_trans. Qed.
#[local] Instance desc_trans {A} (key : A → value) : Transitive (desc vle key).
Proof. intros x y z H1 H2. eapply value_le_trans; eauto. Qed.

Lemma order_by_asc {A} (key : A → value) (l : list A) :
  StronglySorted (asc vle key) (order_by vle key false l).
Proof. apply StronglySorted_merge_sort; apply _. Qed.

Lemma order_by_desc {A} (key : A → value) (l : list A) :
  StronglySorted (desc vle key) (order_by vle key true l).
Proof. apply StronglySorted_merge_sort; apply _. Qed.
End total_order.
End on_graph.

(** ** The sample order is a total preorder *)

Section sample_order.
Import Neo4j.

Lemma string_le_total a b : Sample.string_le a b ∨ Sample.string_le b a.
Proof.
  revert b. induction a as [|x a IH]; intros [|y b]; simpl; auto.
  destruct (Nat.ltb_spec (nat_of_ascii x) (nat_of_ascii y)); [by left|].
  destruct (Nat.ltb_spec (nat_of_ascii y) (nat_of_ascii x)); [by right|].
  apply IH.
Qed.

Lemma string_le_trans a b c :
  Sample.string_le a b → Sample.string_le b c → Sample.string_le a c.
Proof.
  revert b c. induction a as [|x a IH]; intros [|y b] [|z c]; simpl; try done.
  destruct (Nat.ltb_spec (nat_of_ascii x) (nat_of_ascii y));
    destruct (Nat.ltb_spec (nat_of_ascii y) (nat_of_ascii z));
    destruct (Nat.ltb_spec (nat_of_ascii x) (nat_of_ascii z));
    destruct (Nat.ltb_spec (nat_of_ascii y) (nat_of_ascii x));
    destruct (Nat.ltb_spec (nat_of_ascii z) (nat_of_ascii y));
    destruct (Nat.ltb_spec (nat_of_ascii z) (nat_of_ascii x));
    try done; try lia.
  apply IH.
Qed.

Lemma sample_vle_total a b : Sample.vle a b ∨ Sample.vle b a.
Proof.
  destruct a as [[]| |], b as [[]| |]; simpl; auto using string_le_total.
  all: try (by left); try (by right).
  destruct (Z.leb_spec z z0); [by left|right]. apply Is_true_true, Z.leb_le. lia.
Qed.

Lemma sample_vle_trans a b c : Sample.vle a b → Sample.vle b c → Sample.vle a c.
Proof.
  destruct a as [[]| |], b as [[]| |], c as [[]| |]; simpl; try done.
  - rewrite !Is_true_true, !Z.leb_le. lia.
  - apply string_le_trans.
Qed.
End sample_order.

(** ** [all]: size, order and distinctness of the result *)

Section all_result.
Import Neo4j.
Context (vle : scalar → scalar → bool) (g : graph).

Lemma NoDup_tmdbId_sublist (l k : list node) :
  l `sublist_of` k → NoDup (prop "tmdbId" <$> k) → NoDup (prop "tmdbId" <$> l).
Proof. intros Hl Hk. eapply sublist_NoDup; [exact Hk|]. by apply fmap_sublist. Qed.

Lemma sublist_filter_and (P Q : node → Prop)
    `{∀ x, Decision (P x)} `{∀ x, Decision (Q x)} (l : list node) :
  filter (λ x, P x ∧ Q x) l `sublist_of` filter P l.
Proof.
  induction l as [|x l IH]; [done|].
  rewrite !filter_cons.
  destruct (decide (P x ∧ Q x)) as [[? ?]|Hn], (decide (P x)) as [?|?].
  - by constructor.
  - done.
  - by constructor.
  - done.
Qed.
End all_result.

(** C2.  On a graph where no two [Movie] nodes agree on [tmdbId], for an
    attribute name [sort] that the statement can quote (no backtick in it)
    and that is stored on the node (not the computed [favorite]), for [order]
    one of [ASC] and [DESC], and for non-negative [limit] and [skip], [all]
    returns a list of at most [limit] records, ordered on the field [sort]
    non-decreasingly for [ASC] and non-increasingly for [DESC], in which no
    two records have the same [tmdbId]. *)
Theorem all_at_most_limit_sorted_distinct
    (vle : Neo4j.scalar → Neo4j.scalar → bool) (g : Neo4j.graph)
    (sort order : string) (limit skip : Z) (user_id : pyobj) :
  (∀ a b, vle a b ∨ vle b a) →
  (∀ a b c, vle a b → vle b c → vle a c) →
  Neo4j.tmdbId_unique g →
  Neo4j.no_backtick sort → sort ≠ "favorite" → order ∈ ["ASC"; "DESC"] →
  (0 ≤ limit)%Z → (0 ≤ skip)%Z →
  ∃ movies,
    (call (MovieDAO.all (mkDriver (Neo4j.graph_tx vle g)) sort order limit skip user_id)).1
      = Returned movies ∧
    (Z.of_nat (length movies) ≤ limit)%Z ∧
    (order = "ASC" → StronglySorted (Neo4j.asc vle (Neo4j.field sort)) movies) ∧
    (order = "DESC" → StronglySorted (Neo4j.desc vle (Neo4j.field sort)) movies) ∧
    NoDup (py_get "tmdbId" <$> movies).
Proof.
  intros Htot Htrans Huniq Hs Hfav Ho Hl Hk.
  destruct (get_user_favorites_returns vle g user_id []) as (favorites & log & Hf).
  eexists. split; [by eapply all_graph|].
  set (matched := filter _ (Neo4j.nodes g)).
  split; [|split; [|split]].
  - rewrite length_fmap, length_take. lia.
  - intros ->. simpl.
    eapply StronglySorted_fmap;
      [|apply StronglySorted_take, StronglySorted_drop, order_by_asc; done].
    intros x y. unfold Neo4j.asc. by rewrite !field_movie_projection.
  - intros ->. simpl.
    eapply StronglySorted_fmap;
      [|apply StronglySorted_take, StronglySorted_drop, order_by_desc; done].
    intros x y. unfold Neo4j.desc. by rewrite !field_movie_projection.
  - rewrite <-list_fmap_compose.
    rewrite (list_fmap_ext _ (Neo4j.value_to_py ∘ Neo4j.prop "tmdbId"))
      by (intros; by apply py_get_movie_projection).
    rewrite list_fmap_compose. apply NoDup_fmap_2; [apply value_to_py_inj|].
    eapply NoDup_tmdbId_sublist.
    { etrans; [apply sublist_take|apply sublist_drop]. }
    rewrite order_by_perm.
    eapply NoDup_tmdbId_sublist; [|exact Huniq].
    apply sublist_filter_and.
Qed.

Lemma all_at_most_limit_sorted_distinct_witness :
  ∃ movies,
    (call (MovieDAO.all Sample.driver "title" "ASC" 2 1 (PStr "u1"))).1
      = Returned movies ∧
    (Z.of_nat (length movies) ≤ 2)%Z ∧
    ("ASC" = "ASC" → StronglySorted (Neo4j.asc Sample.vle (Neo4j.field "title")) movies) ∧
    ("ASC" = "DESC" → StronglySorted (Neo4j.desc Sample.vle (Neo4j.field "title")) movies) ∧
    NoDup (py_get "tmdbId" <$> movies).
Proof.
  apply (all_at_most_limit_sorted_distinct Sample.vle Sample.store
           "title" "ASC" 2 1 (PStr "u1")).
  - apply sample_vle_total.
  - apply sample_vle_trans.
  - apply (bool_decide_unpack _). vm_compute. exact I.
  - vm_compute. exact I.
  - discriminate.
  - apply list_elem_of_here.
  - lia.
  - lia.
Defined.

(** ** The favorites of a user and the [favorite] flag *)

Section favorites.
Import Neo4j.

Lemma cy_eq_to_py a b : cy_eq a (to_py b) = Some (bool_decide (a = b)).
Proof. by destruct b. Qed.

(** When the list holds stored values only, [IN] is membership. *)
Lemma cy_in_scalars (a : scalar) (l : list pyobj) :
  Forall (λ v, ∃ b, v = to_py b) l →
  ∃ t, cy_in (Some a) l = Some t ∧ (t = true ↔ to_py a ∈ l).
Proof.
  intros Hl. destruct l as [|v0 l0]; [exists false; split; [done|set_solver]|].
  set (l := v0 :: l0) in *. unfold cy_in. fold l.
  change (match l with [] => Some false | _ :: _ =>
            if existsb (λ b, bool_decide (cy_eq a b = Some true)) l then Some true
            else if existsb (λ b, bool_decide (cy_eq a b = None)) l then None
            else Some false end)
    with (if existsb (λ b, bool_decide (cy_eq a b = Some true)) l then Some true
          else if existsb (λ b, bool_decide (cy_eq a b = None)) l then None
          else Some false).
  destruct (existsb (λ b, bool_decide (cy_eq a b = Some true)) l) eqn:Hex.
  - exists true. split; [done|]. split; [|done]. intros _.
    apply existsb_exists in Hex as (v & Hv & Heq).
    apply list_elem_of_In in Hv. apply bool_decide_eq_true in Heq.
    rewrite Forall_forall in Hl. destruct (Hl v Hv) as [b ->].
    rewrite cy_eq_to_py in Heq. injection Heq as Heq.
    apply bool_decide_eq_true in Heq. by subst.
  - assert (existsb (λ b, bool_decide (cy_eq a b = None)) l = false) as ->.
    { apply not_true_is_false. intros (v & Hv & Heq)%existsb_exists.
      apply list_elem_of_In in Hv. apply bool_decide_eq_true in Heq.
      rewrite Forall_forall in Hl. destruct (Hl v Hv) as [b ->].
      by rewrite cy_eq_to_py in Heq. }
    exists false. split; [done|]. split; [done|]. intros Hin.
    apply not_true_iff_false in Hex. exfalso. apply Hex.
    apply existsb_exists. exists (to_py a). split; [by apply list_elem_of_In|].
    apply bool_decide_eq_true. rewrite cy_eq_to_py. by rewrite bool_decide_eq_true_2.
Qed.

Context (vle : scalar → scalar → bool) (g : graph).

(** The elements of what [get_user_favorites] returns on the graph. *)
Lemma get_user_favorites_elem user_id favorites log log' :
  MovieDAO.get_user_favorites (graph_tx vle g) user_id log = (Returned favorites, log') →
  ∀ v, v ∈ favorites ↔
       user_id ≠ PNone ∧
       ∃ m, has_favorite g user_id m ∧ v = value_to_py (prop "tmdbId" m).
Proof.
  intros Hf v.
  assert (user_id ≠ PNone →
          favorites = (λ record, record_get record "id") <$> favorites_rows g user_id)
    as Hrows.
  { intros Hn. destruct user_id; try done; by injection Hf as <- _. }
  assert (user_id = PNone ∨ user_id ≠ PNone) as [->|Hn]
    by (destruct user_id; auto).
  - injection Hf as <- _. split; [by intros ?%not_elem_of_nil|by intros [? _]].
  - rewrite (Hrows Hn), list_elem_of_fmap. split.
    + intros (row & -> & (m & Hm & ->)%elem_of_favorites_rows). eauto.
    + intros (_ & m & Hm & ->).
      exists [("id", value_to_py (prop "tmdbId" m))]. split; [done|].
      apply elem_of_favorites_rows. eauto.
Qed.
End favorites.

(** C3.  For [all] on a graph, with a statement inside the model.  The
    favorites of the user are the [tmdbId] values of the nodes that a
    [HAS_FAVORITE] relationship links to the user, none when no user is
    supplied; [get_user_favorites] returns exactly those.  When the graph
    keeps the data model's identity (every [Movie] node, and every node
    marked as a favorite, has a [tmdbId]), each returned movie has a boolean
    [favorite], true exactly when its [tmdbId] is among the favorites of the
    user, that is, when a favorite node of the user has this [tmdbId].  When
    no user is supplied, [favorite] is the boolean false on every returned
    movie, on any graph. *)
Theorem all_favorite_is_membership
    (vle : Neo4j.scalar → Neo4j.scalar → bool) (g : Neo4j.graph)
    (sort order : string) (limit skip : Z) (user_id : pyobj) :
  Neo4j.no_backtick sort → order ∈ ["ASC"; "DESC"] →
  (0 ≤ limit)%Z → (0 ≤ skip)%Z →
  ∃ favorites movies,
    (call (MovieDAO.get_user_favorites (Neo4j.graph_tx vle g) user_id)).1
      = Returned favorites ∧
    (∀ v, v ∈ favorites ↔
          user_id ≠ PNone ∧
          ∃ n, Neo4j.has_favorite g user_id n ∧
               v = Neo4j.value_to_py (Neo4j.prop "tmdbId" n)) ∧
    (call (MovieDAO.all (mkDriver (Neo4j.graph_tx vle g)) sort order limit skip user_id)).1
      = Returned movies ∧
    (Neo4j.movies_identified g → Neo4j.favorites_identified g →
     ∀ m, m ∈ movies →
       ∃ b, py_get "favorite" m = PBool b ∧
            (b = true ↔ py_get "tmdbId" m ∈ favorites) ∧
            (b = true ↔
             user_id ≠ PNone ∧
             ∃ n, Neo4j.has_favorite g user_id n ∧
                  py_get "tmdbId" m = Neo4j.value_to_py (Neo4j.prop "tmdbId" n))) ∧
    (user_id = PNone → ∀ m, m ∈ movies → py_get "favorite" m = PBool false).
Proof.
  intros Hs Ho Hl Hk.
  destruct (get_user_favorites_returns vle g user_id []) as (favorites & log & Hf).
  pose proof (get_user_favorites_elem vle g _ _ _ _ Hf) as Helem.
  exists favorites. eexists. split; [unfold call; by rewrite Hf|].
  split; [exact Helem|].
  split; [by eapply all_graph|]. split.
  - intros Hmov Hfav m (n & -> & Hn)%list_elem_of_fmap.
    apply subseteq_take, subseteq_drop in Hn. rewrite order_by_perm in Hn.
    apply list_elem_of_filter in Hn as [[Hlabel _] Hin].
    unfold Neo4j.movies_identified in Hmov. rewrite Forall_forall in Hmov.
    destruct (Hmov n Hin Hlabel) as [t Ht].
    rewrite py_get_favorite, py_get_movie_projection, Ht by done.
    destruct (cy_in_scalars t favorites) as (b & -> & Hb).
    + apply Forall_forall. intros v Hv.
      apply Helem in Hv
        as (_ & m' & (u & r & _ & _ & _ & Hr & _ & Hty & Hm' & Hid) & ->).
      unfold Neo4j.favorites_identified in Hfav. rewrite Forall_forall in Hfav.
      specialize (Hfav r Hr Hty). rewrite Forall_forall in Hfav.
      destruct (Hfav m' Hm' Hid) as [t' Ht']. exists t'. by rewrite Ht'.
    + exists b. split; [done|]. split; [exact Hb|].
      rewrite Hb. apply Helem.
  - intros -> m (n & -> & Hn)%list_elem_of_fmap.
    injection Hf as <- _. by rewrite py_get_favorite.
Qed.

Lemma all_favorite_is_membership_witness :
  ∃ favorites movies,
    (call (MovieDAO.get_user_favorites (session_tx Sample.driver) (PStr "u1"))).1
      = Returned favorites ∧
    (∀ v, v ∈ favorites ↔
          PStr "u1" ≠ PNone ∧
          ∃ n, Neo4j.has_favorite Sample.store (PStr "u1") n ∧
               v = Neo4j.value_to_py (Neo4j.prop "tmdbId" n)) ∧
    (call (MovieDAO.all Sample.driver "imdbRating" "DESC" 6 0 (PStr "u1"))).1
      = Returned movies ∧
    (∀ m, m ∈ movies →
       ∃ b, py_get "favorite" m = PBool b ∧
            (b = true ↔ py_get "tmdbId" m ∈ favorites) ∧
            (b = true ↔
             PStr "u1" ≠ PNone ∧
             ∃ n, Neo4j.has_favorite Sample.store (PStr "u1") n ∧
                  py_get "tmdbId" m = Neo4j.value_to_py (Neo4j.prop "tmdbId" n))) ∧
    favorites = [PStr "680"; PStr "13"] ∧
    (py_get "tmdbId" <$> movies) = [PStr "278"; PStr "680"; PStr "13"; PStr "769"] ∧
    (py_get "favorite" <$> movies) = [PBool false; PBool true; PBool true; PBool false].
Proof.
  destruct (all_favorite_is_membership Sample.vle Sample.store
              "imdbRating" "DESC" 6 0 (PStr "u1"))
    as (F & movies & HF & Helem & Hm & Hflag & _).
  - vm_compute. exact I.
  - apply list_elem_of_further, list_elem_of_here.
  - lia.
  - lia.
  - exists F, movies. split; [exact HF|]. split; [exact Helem|].
    split; [exact Hm|]. split.
    + apply Hflag; apply (bool_decide_unpack _); vm_compute; exact I.
    + split; [vm_compute in HF; by injection HF as <-|].
      erewrite all_graph in Hm;
        [|done|apply list_elem_of_further, list_elem_of_here|lia|lia|reflexivity].
      injection Hm as <-. split; vm_compute; reflexivity.
Defined.

(** C4.  [get_user_favorites] with no user returns the empty list, runs no
    statement and raises nothing, on any transaction.  With a user, on a
    graph, it runs its one statement and returns a list whose elements are
    exactly the [tmdbId] values of the nodes that a [HAS_FAVORITE]
    relationship links to that user. *)
Theorem get_user_favorites_none_or_linked :
  (∀ (tx : Tx) (log : list Stmt),
     MovieDAO.get_user_favorites tx PNone log = (Returned [], log)) ∧
  (∀ (vle : Neo4j.scalar → Neo4j.scalar → bool) (g : Neo4j.graph) (user_id : pyobj),
     user_id ≠ PNone →
     ∃ favorites,
       call (MovieDAO.get_user_favorites (Neo4j.graph_tx vle g) user_id)
         = (Returned favorites, [mkStmt FAVORITES_CYPHER [("userId", user_id)]]) ∧
       ∀ v, v ∈ favorites ↔
            ∃ m, Neo4j.has_favorite g user_id m ∧
                 v = Neo4j.value_to_py (Neo4j.prop "tmdbId" m)).
Proof.
  split; [done|]. intros vle g user_id Hn.
  eexists. split.
  - by destruct user_id.
  - intros v.
    assert (MovieDAO.get_user_favorites (Neo4j.graph_tx vle g) user_id []
            = (Returned ((λ record, record_get record "id") <$>
                           Neo4j.favorites_rows g user_id),
               [mkStmt FAVORITES_CYPHER [("userId", user_id)]])) as Hf
      by (by destruct user_id).
    rewrite (get_user_favorites_elem vle g _ _ _ _ Hf v).
    split; [by intros [_ H]|by intros H].
Qed.

Lemma get_user_favorites_none_or_linked_witness :
  ∃ favorites,
    call (MovieDAO.get_user_favorites (Neo4j.graph_tx Sample.vle Sample.store) (PStr "u1"))
      = (Returned favorites, [mkStmt FAVORITES_CYPHER [("userId", PStr "u1")]]) ∧
    ∀ v, v ∈ favorites ↔
         ∃ m, Neo4j.has_favorite Sample.store (PStr "u1") m ∧
              v = Neo4j.value_to_py (Neo4j.prop "tmdbId" m).
Proof.
  apply (proj2 get_user_favorites_none_or_linked Sample.vle Sample.store (PStr "u1")).
  discriminate.
Defined.

(** ** [all] does not validate [sort] and [order] *)

(** C1, as stated, fails: with an [order] that is neither [ASC] nor [DESC]
    and a [sort] that closes the backtick quotation, the call is not
    refused; the text is built and handed to the transaction, here to one
    that accepts it, and the call returns. *)
Lemma all_runs_unlisted_sort_and_order :
("SIDEWAYS" ∉ ["ASC"; "DESC"]) ∧
  Neo4j.no_backtick "title` IS NOT NULL //" = false ∧
  ¬ rejected_before_query
      (call (MovieDAO.all (mkDriver accepting_tx) "title` IS NOT NULL //" "SIDEWAYS" 6 0 PNone)) ∧
  call (MovieDAO.all (mkDriver accepting_tx) "title` IS NOT NULL //" "SIDEWAYS" 6 0 PNone)
  = (Returned [],
     [mkStmt (movies_text "title` IS NOT NULL //" "SIDEWAYS")
        [("limit", PInt 6); ("skip", PInt 0); ("user_id", PNone); ("favorites", PList [])]]).
Proof.
  split; [|split; [|split]].
  - intros H. set_unfold in H. destruct H as [H|[H|[]]]; discriminate H.
  - reflexivity.
  - intros [[e He] _]. vm_compute in He. discriminate He.
  - reflexivity.
Qed.

(** C1, amended.  [all] checks neither [sort] nor [order]: for all values of
    them, once the favorites are there, it fills them into the template and
    hands the text to the transaction; the answer of the transaction is the
    outcome of the call. *)
Theorem all_interpolates_and_runs
    (driver : Driver) (sort order : string) (limit skip : Z) (user_id : pyobj) :
  call (MovieDAO.all driver sort order limit skip user_id)
  = match call (MovieDAO.get_user_favorites (session_tx driver) user_id) with
    | (Returned favorites, log) =>
        let args := [("limit", PInt limit); ("skip", PInt skip);
                     ("user_id", user_id); ("favorites", PList favorites)] in
        (match session_tx driver (movies_text sort order) args with
         | Returned rows => Returned ((λ row, record_value row "movie") <$> rows)
         | Raised e => Raised e
         end,
         log ++ [mkStmt (movies_text sort order) args])
    | (Raised e, log) => (Raised e, log)
    end.
Proof.
  unfold call, MovieDAO.all, execute_read, MovieDAO.get_movies.
  unfold mbind, M_bind, bind at 1.
  destruct (MovieDAO.get_user_favorites (session_tx driver) user_id [])
    as [[favorites|e] log]; [|done].
  rewrite format_movies. unfold bind, tx_run.
  by destruct (session_tx driver _ _).
Qed.

(** ** The methods that answer from the sample data *)

Section slices.
Context {A : Type}.
Implicit Types l : list A.

Lemma py_slice_nonneg l (start stop : Z) :
  (0 ≤ start)%Z → (0 ≤ stop)%Z →
  py_slice l start stop
  = take (Z.to_nat stop - Z.to_nat start) (drop (Z.to_nat start) l).
Proof.
  intros Hs Ht. unfold py_slice, slice_bound.
  destruct (Z.ltb_spec start 0); [lia|]. destruct (Z.ltb_spec stop 0); [lia|].
  destruct (decide (Z.of_nat (length l) ≤ start)%Z) as [Hge|Hlt].
  - rewrite !drop_ge by lia. by rewrite !take_nil.
  - rewrite (Z.min_l start) by lia.
    destruct (decide (stop ≤ Z.of_nat (length l))%Z).
    + rewrite Z.min_l by lia. f_equal. lia.
    + rewrite Z.min_r by lia.
      rewrite !take_ge; [done|rewrite length_drop; lia..].
Qed.

Lemma py_slice_length l (start stop : Z) :
  (0 ≤ start)%Z → (0 ≤ stop)%Z →
  Z.of_nat (length (py_slice l start stop))
  = Z.max 0 (Z.min stop (Z.of_nat (length l)) - start).
Proof.
  intros Hs Ht. rewrite py_slice_nonneg by done.
  rewrite length_take, length_drop. lia.
Qed.

Lemma py_slice_empty l (start stop : Z) :
  (0 ≤ start)%Z → (0 ≤ stop)%Z → (stop ≤ start)%Z → py_slice l start stop = [].
Proof.
  intros Hs Ht Hle. rewrite py_slice_nonneg by done.
  by replace (Z.to_nat stop - Z.to_nat start) with 0 by lia.
Qed.
End slices.

(** C7.  [get_by_genre] hands no statement to the driver and returns [None],
    whatever its arguments: the function it defines is not called. *)
Theorem get_by_genre_returns_none
    (driver : Driver) (name sort order : string) (limit skip : Z) (user_id : pyobj)
    (log : list Stmt) :
  MovieDAO.get_by_genre driver name sort order limit skip user_id log
  = (Returned PNone, log).
Proof. reflexivity. Qed.

(** C8.  [find_by_id] returns the sample record [goodfellas] for every [id]
    and [user_id], and runs no statement. *)
Theorem find_by_id_returns_goodfellas
    (goodfellas : pyobj) (id user_id : pyobj) (log : list Stmt) :
  MovieDAO.find_by_id goodfellas id user_id log = (Returned goodfellas, log).
Proof. reflexivity. Qed.

(** C9.  The results of [get_for_actor], [get_for_director] and
    [get_similar_movies] depend on [skip] and [limit] only: two calls that
    agree on them are equal, whatever [id], [sort], [order] and [user_id]. *)
Theorem sample_methods_ignore_other_arguments
    (popular : list pyobj) (limit skip : Z)
    (id id' : pyobj) (sort sort' order order' : string) (user_id user_id' : pyobj) :
  MovieDAO.get_for_actor popular id sort order limit skip user_id
    = MovieDAO.get_for_actor popular id' sort' order' limit skip user_id' ∧
  MovieDAO.get_for_director popular id sort order limit skip user_id
    = MovieDAO.get_for_director popular id' sort' order' limit skip user_id' ∧
  MovieDAO.get_similar_movies popular id limit skip user_id
    = MovieDAO.get_similar_movies popular id' limit skip user_id'.
Proof. done. Qed.

(** C10, as stated, fails for a negative bound, which a slice counts from
    the end: with three sample records, [skip = 0] and [limit = -1], the
    three methods return two records, where the claimed length is
    [max(0, min(-1, 3) - 0) = 0], and [skip >= limit] holds. *)
Lemma sample_slice_negative_limit :
  let popular := [PStr "a"; PStr "b"; PStr "c"] in
  (call (MovieDAO.get_for_actor popular PNone "title" "ASC" (-1) 0 PNone)).1
    = Returned [PStr "a"; PStr "b"] ∧
  (call (MovieDAO.get_for_director popular PNone "title" "ASC" (-1) 0 PNone)).1
    = Returned [PStr "a"; PStr "b"] ∧
  (call (MovieDAO.get_similar_movies popular PNone (-1) 0 PNone)).1
    = Returned [PStr "a"; PStr "b"] ∧
  Z.max 0 (Z.min (-1) (Z.of_nat (length popular)) - 0) = 0%Z ∧
  (-1 ≤ 0)%Z.
Proof. repeat split; try reflexivity. lia. Qed.

(** C10, amended.  For non-negative [skip] and [limit], [get_for_actor],
    [get_for_director] and [get_similar_movies] return the slice
    [popular[skip:limit]]: its length is [max(0, min(limit, len(popular)) - skip)],
    and it is empty whenever [skip >= limit]. *)
Theorem sample_slice_by_index (popular : list pyobj) (limit skip : Z)
    (id : pyobj) (sort order : string) (user_id : pyobj) :
  (0 ≤ skip)%Z → (0 ≤ limit)%Z →
  ∃ movies,
    (call (MovieDAO.get_for_actor popular id sort order limit skip user_id)).1
      = Returned movies ∧
    (call (MovieDAO.get_for_director popular id sort order limit skip user_id)).1
      = Returned movies ∧
    (call (MovieDAO.get_similar_movies popular id limit skip user_id)).1
      = Returned movies ∧
    movies = py_slice popular skip limit ∧
    Z.of_nat (length movies)
      = Z.max 0 (Z.min limit (Z.of_nat (length popular)) - skip) ∧
    ((limit ≤ skip)%Z → movies = []).
Proof.
  intros Hs Hl. exists (py_slice popular skip limit).
  repeat split; auto using py_slice_length, py_slice_empty.
Qed.

Lemma sample_slice_by_index_witness :
  ∃ movies,
    (call (MovieDAO.get_for_actor [PStr "a"; PStr "b"; PStr "c"]
             PNone "title" "ASC" 2 1 PNone)).1 = Returned movies ∧
    (call (MovieDAO.get_for_director [PStr "a"; PStr "b"; PStr "c"]
             PNone "title" "ASC" 2 1 PNone)).1 = Returned movies ∧
    (call (MovieDAO.get_similar_movies [PStr "a"; PStr "b"; PStr "c"]
             PNone 2 1 PNone)).1 = Returned movies ∧
    movies = py_slice [PStr "a"; PStr "b"; PStr "c"] 1 2 ∧
    Z.of_nat (length movies) = Z.max 0 (Z.min 2 (Z.of_nat 3) - 1) ∧
    ((2 ≤ 1)%Z → movies = []).
Proof.
  apply (sample_slice_by_index [PStr "a"; PStr "b"; PStr "c"] 2 1
           PNone "title" "ASC" PNone); lia.
Defined.

(** C5.  For non-negative [skip] and [limit], no public method returns a
    list of more than [limit] records: the three methods that slice the
    sample data, and [all] on a graph for a statement inside the model.
    ([get_by_genre] and [find_by_id] return no list.) *)
Theorem result_size_at_most_limit
    (popular : list pyobj) (vle : Neo4j.scalar → Neo4j.scalar → bool) (g : Neo4j.graph)
    (id : pyobj) (sort order : string) (limit skip : Z) (user_id : pyobj) :
  (0 ≤ skip)%Z → (0 ≤ limit)%Z →
  (∃ movies,
     (call (MovieDAO.get_for_actor popular id sort order limit skip user_id)).1
       = Returned movies ∧ (Z.of_nat (length movies) ≤ limit)%Z) ∧
  (∃ movies,
     (call (MovieDAO.get_for_director popular id sort order limit skip user_id)).1
       = Returned movies ∧ (Z.of_nat (length movies) ≤ limit)%Z) ∧
  (∃ movies,
     (call (MovieDAO.get_similar_movies popular id limit skip user_id)).1
       = Returned movies ∧ (Z.of_nat (length movies) ≤ limit)%Z) ∧
  (Neo4j.no_backtick sort → order ∈ ["ASC"; "DESC"] →
   ∃ movies,
     (call (MovieDAO.all (mkDriver (Neo4j.graph_tx vle g)) sort order limit skip user_id)).1
       = Returned movies ∧ (Z.of_nat (length movies) ≤ limit)%Z).
Proof.
  intros Hk Hl.
  assert (Z.of_nat (length (py_slice popular skip limit)) ≤ limit)%Z as Hslice
    by (rewrite py_slice_length by done; lia).
  repeat split; try (by eexists; split; [reflexivity|exact Hslice]).
  intros Hs Ho.
  destruct (get_user_favorites_returns vle g user_id []) as (favorites & log & Hf).
  eexists. split; [by eapply all_graph|].
  rewrite length_fmap, length_take. lia.
Qed.

Lemma result_size_at_most_limit_witness :
  (∃ movies,
     (call (MovieDAO.get_for_actor [PStr "a"; PStr "b"; PStr "c"]
              PNone "title" "ASC" 2 0 PNone)).1
       = Returned movies ∧ (Z.of_nat (length movies) ≤ 2)%Z) ∧
  (∃ movies,
     (call (MovieDAO.all Sample.driver "title" "ASC" 2 0 PNone)).1
       = Returned movies ∧ (Z.of_nat (length movies) ≤ 2)%Z).
Proof.
  destruct (result_size_at_most_limit [PStr "a"; PStr "b"; PStr "c"]
              Sample.vle Sample.store PNone "title" "ASC" 2 0 PNone)
    as (Hactor & _ & _ & Hall); [lia|lia|].
  split; [exact Hactor|]. apply Hall.
  - vm_compute. exact I.
  - apply list_elem_of_here.
Defined.

(** ** The genre listing nested in [get_by_genre] *)

Section genres.
Import Neo4j.
Context (vle : scalar → scalar → bool) (g : graph).

Lemma elem_of_genre_members genre m :
  m ∈ genre_members g genre ↔ in_genre g genre m.
Proof.
  unfold genre_members, in_genre. rewrite list_elem_of_bind. split.
  - intros (r & [[? ?] ?]%list_elem_of_filter & [[? ?] ?]%list_elem_of_filter).
    exists r. done.
  - intros (r & ? & ? & ? & ? & ? & ?). exists r.
    split; by apply list_elem_of_filter.
Qed.

Lemma elem_of_rated_members genre m :
  m ∈ filter (λ m, is_Some (prop "imdbRating" m) ∧ is_Some (prop "poster" m))
             (genre_members g genre)
  ↔ rated_member g genre m.
Proof.
  rewrite list_elem_of_filter, elem_of_genre_members. unfold rated_member.
  split; [by intros [[? ?] ?]|by intros (? & ? & ?)].
Qed.

Lemma py_get_genre_name genre m :
  py_get "name" (genre_projection g genre m) = value_to_py (prop "name" genre).
Proof.
  unfold genre_projection, py_get, prop.
  rewrite !lookup_insert_ne by done. rewrite lookup_fmap.
  by destruct (props genre !! "name").
Qed.

Lemma py_get_genre_poster genre m :
  py_get "poster" (genre_projection g genre m) = value_to_py (prop "poster" m).
Proof. unfold genre_projection, py_get. by rewrite lookup_insert_eq. Qed.

(** What the nested function returns on the graph. *)
Lemma get_by_genre_all_graph :
  (call (MovieDAO.get_by_genre_all (mkDriver (graph_tx vle g)))).1
  = Returned ((λ gm, genre_projection g gm.1 gm.2) <$>
      order_by vle (λ gm, prop "name" gm.1) false
        (genre ← filter genre_kept (nodes g);
         m ← genre_poster_rows vle g genre;
         [(genre, m)])).
Proof.
  unfold call, MovieDAO.get_by_genre_all, execute_read. simpl session_tx.
  unfold mbind, M_bind, bind, tx_run. rewrite graph_tx_genres. simpl.
  unfold genres_rows. by rewrite <-list_fmap_compose.
Qed.

Lemma elem_of_joined genre m :
  (genre, m) ∈ (genre ← filter genre_kept (nodes g);
                m ← genre_poster_rows vle g genre;
                [(genre, m)])
  ↔ genre ∈ nodes g ∧ genre_kept genre ∧ m ∈ genre_poster_rows vle g genre.
Proof.
  rewrite list_elem_of_bind. split.
  - intros (genre' & (m' & [= -> ->]%list_elem_of_singleton & ?)%list_elem_of_bind
                   & [? ?]%list_elem_of_filter). done.
  - intros (? & ? & ?). exists genre. split; [|by apply list_elem_of_filter].
    apply list_elem_of_bind. exists m. split; [by apply list_elem_of_singleton|done].
Qed.

Section total_order.
Hypothesis vle_total : ∀ a b, vle a b ∨ vle b a.
Hypothesis vle_trans : ∀ a b c, vle a b → vle b c → vle a c.

(** The one row of the subquery is a rated member with the highest rating. *)
Lemma elem_of_genre_poster_rows genre m :
  m ∈ genre_poster_rows vle g genre →
  rated_member g genre m ∧
  ∀ m', rated_member g genre m' →
        value_le vle (prop "imdbRating" m') (prop "imdbRating" m).
Proof.
  unfold genre_poster_rows.
  set (rated := filter _ (genre_members g genre)).
  pose proof (order_by_desc vle vle_total vle_trans (prop "imdbRating") rated) as Hsorted.
  pose proof (order_by_perm vle (prop "imdbRating") true rated) as Hperm.
  destruct (order_by vle (prop "imdbRating") true rated) as [|m0 rest] eqn:Hl;
    simpl; [by intros ?%not_elem_of_nil|].
  intros <-%list_elem_of_singleton. split.
  - apply elem_of_rated_members. fold rated. rewrite <-Hperm. apply list_elem_of_here.
  - intros m' Hm'. apply elem_of_rated_members in Hm'. fold rated in Hm'.
    rewrite <-Hperm in Hm'. apply StronglySorted_cons in Hsorted as [Hall _].
    apply elem_of_cons in Hm' as [->|Hin].
    + destruct (value_le_total vle vle_total (prop "imdbRating" m) (prop "imdbRating" m)); done.
    + rewrite Forall_forall in Hall. exact (Hall m' Hin).
Qed.
End total_order.

(** The genre nodes of the joined rows, in order: each kept genre once or
    not at all. *)
Lemma joined_sources_sublist :
  (genre ← filter genre_kept (nodes g);
   m ← genre_poster_rows vle g genre;
   [(genre, m)]).*1
  `sublist_of` filter genre_kept (nodes g).
Proof.
  induction (filter genre_kept (nodes g)) as [|genre l IH]; [done|].
  rewrite bind_cons, fmap_app.
  assert (length (genre_poster_rows vle g genre) ≤ 1)%nat as Hlen
    by (unfold genre_poster_rows; rewrite length_take; lia).
  destruct (genre_poster_rows vle g genre) as [|m [|m' rest]]; simpl in *.
  - by apply sublist_cons.
  - by apply sublist_skip.
  - lia.
Qed.

(** A genre with a rated member has a row in its subquery. *)
Lemma genre_poster_rows_nonempty genre m :
  rated_member g genre m → ∃ m0, m0 ∈ genre_poster_rows vle g genre.
Proof.
  intros Hm%elem_of_rated_members. unfold genre_poster_rows.
  set (rated := filter _ (genre_members g genre)) in *.
  rewrite <-(order_by_perm vle (prop "imdbRating") true rated) in Hm.
  destruct (order_by vle (prop "imdbRating") true rated) as [|m0 rest];
    [by apply not_elem_of_nil in Hm|].
  exists m0. apply list_elem_of_here.
Qed.
End genres.

(** C6, as stated, fails on the sample graph.  The genre [Western] is not
    the sentinel, yet the listing has no record for it: its only member has
    no rating and no poster, so its subquery has no row.  And the record of
    [Drama] carries the poster of a member rated 88, while the member rated
    93 is its highest-rated one and has no poster. *)
Lemma genre_listing_on_sample :
  ∃ genres,
    (call (MovieDAO.get_by_genre_all Sample.driver)).1 = Returned genres ∧
    (∃ western,
       western ∈ Neo4j.nodes Sample.store ∧ Neo4j.has_label "Genre" western ∧
       Neo4j.prop "name" western = Some (Neo4j.SStr "Western") ∧
       Neo4j.SStr "Western" ≠ Neo4j.SStr "(no genres listed)" ∧
       ∀ r, r ∈ genres → py_get "name" r ≠ PStr "Western") ∧
    (∃ drama best r,
       drama ∈ Neo4j.nodes Sample.store ∧
       Neo4j.prop "name" drama = Some (Neo4j.SStr "Drama") ∧
       Neo4j.in_genre Sample.store drama best ∧
       Neo4j.prop "imdbRating" best = Some (Neo4j.SInt 93) ∧
       (∀ m, Neo4j.in_genre Sample.store drama m →
             Neo4j.value_le Sample.vle (Neo4j.prop "imdbRating" m)
                                       (Neo4j.prop "imdbRating" best)) ∧
       r ∈ genres ∧ py_get "name" r = PStr "Drama" ∧
       py_get "poster" r = PStr "/13" ∧
       py_get "poster" r ≠ Neo4j.value_to_py (Neo4j.prop "poster" best)).
Proof.
  eexists. split; [vm_compute; reflexivity|]. split.
  - exists (Neo4j.mkNode 13 ["Genre"] (<["name" := Neo4j.SStr "Western"]> ∅)).
    split; [|split; [|split; [|split]]].
    + unfold Sample.store. simpl. do 8 apply list_elem_of_further. apply list_elem_of_here.
    + apply list_elem_of_here.
    + reflexivity.
    + discriminate.
    + intros r Hr. apply elem_of_cons in Hr as [->|Hr]; [vm_compute; discriminate|].
      apply list_elem_of_singleton in Hr as ->. vm_compute. discriminate.
  - exists (Neo4j.mkNode 11 ["Genre"] (<["name" := Neo4j.SStr "Drama"]> ∅)).
    exists (Neo4j.mkNode 5 ["Movie"]
        (<["tmdbId" := Neo4j.SStr "278"]> (<["title" := Neo4j.SStr "The Shawshank Redemption"]>
          (<["imdbRating" := Neo4j.SInt 93]> ∅)))).
    eexists.
    split; [|split; [|split; [|split; [|split; [|split; [|split; [|split]]]]]]].
    + unfold Sample.store. simpl. do 6 apply list_elem_of_further. apply list_elem_of_here.
    + reflexivity.
    + exists (Neo4j.mkRel 5 "IN_GENRE" 11). unfold Sample.store. simpl.
      repeat split; try reflexivity.
      * do 3 apply list_elem_of_further. apply list_elem_of_here.
      * do 4 apply list_elem_of_further. apply list_elem_of_here.
      * apply list_elem_of_here.
    + reflexivity.
    + intros m Hm. apply elem_of_genre_members in Hm.
      vm_compute in Hm.
      apply elem_of_cons in Hm as [->|Hm]; [vm_compute; exact I|].
      apply list_elem_of_singleton in Hm as ->. vm_compute. exact I.
    + apply list_elem_of_further, list_elem_of_here.
    + vm_compute. reflexivity.
    + vm_compute. reflexivity.
    + vm_compute. discriminate.
Qed.

(** C6, amended.  The listing nested in [get_by_genre], run on a graph,
    returns a record for every [Genre] node that has a name other than the
    sentinel and at least one member movie with both a rating and a poster,
    and only for those; the poster of a record is the poster of a
    highest-rated one among the members that have both. *)
Theorem genre_listing_rated_members
    (vle : Neo4j.scalar → Neo4j.scalar → bool) (g : Neo4j.graph) :
  (∀ a b, vle a b ∨ vle b a) →
  (∀ a b c, vle a b → vle b c → vle a c) →
  ∃ genres,
    (call (MovieDAO.get_by_genre_all (mkDriver (Neo4j.graph_tx vle g)))).1
      = Returned genres ∧
    (∀ r, r ∈ genres →
       ∃ genre m,
         genre ∈ Neo4j.nodes g ∧ Neo4j.genre_kept genre ∧
         Neo4j.rated_member g genre m ∧
         (∀ m', Neo4j.rated_member g genre m' →
                Neo4j.value_le vle (Neo4j.prop "imdbRating" m')
                                   (Neo4j.prop "imdbRating" m)) ∧
         py_get "name" r = Neo4j.value_to_py (Neo4j.prop "name" genre) ∧
         py_get "poster" r = Neo4j.value_to_py (Neo4j.prop "poster" m)) ∧
    (∀ genre m,
       genre ∈ Neo4j.nodes g → Neo4j.genre_kept genre →
       Neo4j.rated_member g genre m →
       ∃ r, r ∈ genres ∧
            py_get "name" r = Neo4j.value_to_py (Neo4j.prop "name" genre)).
Proof.
  intros Htot Htrans. eexists. split; [apply get_by_genre_all_graph|]. split.
  - intros r ([genre m] & -> & Hgm)%list_elem_of_fmap. cbn [fst snd].
    rewrite order_by_perm in Hgm.
    apply elem_of_joined in Hgm as (Hin & Hkept & Hm).
    apply elem_of_genre_poster_rows in Hm as [Hrated Hmax]; [|done..].
    exists genre, m.
    by rewrite py_get_genre_name, py_get_genre_poster.
  - intros genre m Hin Hkept Hrated.
    destruct (genre_poster_rows_nonempty vle g genre m Hrated) as [m0 Hm0].
    exists (Neo4j.genre_projection g genre m0). split.
    + apply list_elem_of_fmap. exists (genre, m0). split; [done|].
      rewrite order_by_perm. by apply elem_of_joined.
    + apply py_get_genre_name.
Qed.

Lemma genre_listing_rated_members_witness :
  ∃ genres,
    (call (MovieDAO.get_by_genre_all Sample.driver)).1 = Returned genres ∧
    (∀ r, r ∈ genres →
       ∃ genre m,
         genre ∈ Neo4j.nodes Sample.store ∧ Neo4j.genre_kept genre ∧
         Neo4j.rated_member Sample.store genre m ∧
         (∀ m', Neo4j.rated_member Sample.store genre m' →
                Neo4j.value_le Sample.vle (Neo4j.prop "imdbRating" m')
                                          (Neo4j.prop "imdbRating" m)) ∧
         py_get "name" r = Neo4j.value_to_py (Neo4j.prop "name" genre) ∧
         py_get "poster" r = Neo4j.value_to_py (Neo4j.prop "poster" m)) ∧
    (∀ genre m,
       genre ∈ Neo4j.nodes Sample.store → Neo4j.genre_kept genre →
       Neo4j.rated_member Sample.store genre m →
       ∃ r, r ∈ genres ∧
            py_get "name" r = Neo4j.value_to_py (Neo4j.prop "name" genre)).
Proof.
  apply (genre_listing_rated_members Sample.vle Sample.store).
  - apply sample_vle_total.
  - apply sample_vle_trans.
Defined.

(** * Further properties of the DAO *)

(** ** The statements [all] runs, on any driver *)

(** With a user, [all] stops at a failing favorites lookup: the error is
    the outcome of the call and the movie statement is never run. *)
Theorem all_stops_when_favorites_fail
    (driver : Driver) (sort order : string) (limit skip : Z) (user_id : pyobj) (e : exn) :
  user_id ≠ PNone →
  session_tx driver FAVORITES_CYPHER [("userId", user_id)] = Raised e →
  call (MovieDAO.all driver sort order limit skip user_id)
  = (Raised e, [mkStmt FAVORITES_CYPHER [("userId", user_id)]]).
Proof.
  intros Hn He.
  unfold call, MovieDAO.all, execute_read, MovieDAO.get_movies.
  unfold mbind, M_bind, bind at 1.
  assert (MovieDAO.get_user_favorites (session_tx driver) user_id []
          = (Raised e, [mkStmt FAVORITES_CYPHER [("userId", user_id)]])) as ->; [|done].
  destruct user_id; try done; simpl;
    unfold mbind, M_bind, bind, tx_run; by rewrite He.
Qed.

Lemma all_stops_when_favorites_fail_witness :
  call (MovieDAO.all (mkDriver failing_tx) "title" "ASC" 6 0 (PStr "u1"))
  = (Raised (CypherError "database unavailable"),
     [mkStmt FAVORITES_CYPHER [("userId", PStr "u1")]]).
Proof.
  apply (all_stops_when_favorites_fail (mkDriver failing_tx) "title" "ASC" 6 0 (PStr "u1")).
  - discriminate.
  - reflexivity.
Defined.

(** Without a user, [all] runs the movie statement only, with an empty
    [favorites] parameter.  With a user whose favorites lookup answers, it
    runs the favorites statement first and then the movie statement, whose
    [favorites] parameter holds the [id] column of the lookup's rows;
    [limit], [skip] and [user_id] are passed on as they came. *)
Theorem all_statements_in_order
    (driver : Driver) (sort order : string) (limit skip : Z) (user_id : pyobj)
    (rows : list Record) :
  (user_id = PNone →
   (call (MovieDAO.all driver sort order limit skip user_id)).2
   = [mkStmt (movies_text sort order)
        [("limit", PInt limit); ("skip", PInt skip);
         ("user_id", PNone); ("favorites", PList [])]]) ∧
  (user_id ≠ PNone →
   session_tx driver FAVORITES_CYPHER [("userId", user_id)] = Returned rows →
   (call (MovieDAO.all driver sort order limit skip user_id)).2
   = [mkStmt FAVORITES_CYPHER [("userId", user_id)];
      mkStmt (movies_text sort order)
        [("limit", PInt limit); ("skip", PInt skip); ("user_id", user_id);
         ("favorites", PList ((λ record, record_get record "id") <$> rows))]]).
Proof.
  split.
  - intros ->. unfold call, MovieDAO.all, execute_read, MovieDAO.get_movies.
    unfold mbind, M_bind, bind at 1. simpl.
    unfold bind, tx_run. by destruct (session_tx driver _ _).
  - intros Hn Hrows.
    unfold call, MovieDAO.all, execute_read, MovieDAO.get_movies.
    unfold mbind, M_bind, bind at 1.
    assert (MovieDAO.get_user_favorites (session_tx driver) user_id []
            = (Returned ((λ record, record_get record "id") <$> rows),
               [mkStmt FAVORITES_CYPHER [("userId", user_id)]])) as ->.
    { destruct user_id; try done; simpl;
        unfold mbind, M_bind, bind, tx_run; by rewrite Hrows. }
    rewrite format_movies. unfold bind, tx_run.
    destruct (session_tx driver (movies_text sort order) _); reflexivity.
Qed.

Lemma all_statements_in_order_witness :
  (call (MovieDAO.all (mkDriver accepting_tx) "title" "ASC" 6 0 (PStr "u1"))).2
  = [mkStmt FAVORITES_CYPHER [("userId", PStr "u1")];
     mkStmt (movies_text "title" "ASC")
       [("limit", PInt 6); ("skip", PInt 0); ("user_id", PStr "u1");
        ("favorites", PList [])]].
Proof.
  apply (proj2 (all_statements_in_order (mkDriver accepting_tx)
                  "title" "ASC" 6 0 (PStr "u1") [])).
  - discriminate.
  - reflexivity.
Defined.

(** ** Slices of the sample data *)

(** Whatever integers [skip] and [limit] are, negative ones included,
    [get_for_actor], [get_for_director] and [get_similar_movies] return
    records of the sample list, in its order and without repeating a
    position: the result is a sublist of [popular]. *)
Theorem sample_methods_return_sublist
    (popular : list pyobj) (id : pyobj) (sort order : string) (limit skip : Z)
    (user_id : pyobj) :
  ∃ movies,
    (call (MovieDAO.get_for_actor popular id sort order limit skip user_id)).1
      = Returned movies ∧
    (call (MovieDAO.get_for_director popular id sort order limit skip user_id)).1
      = Returned movies ∧
    (call (MovieDAO.get_similar_movies popular id limit skip user_id)).1
      = Returned movies ∧
    movies `sublist_of` popular.
Proof.
  exists (py_slice popular skip limit). repeat split.
  unfold py_slice. etrans; [apply sublist_take|apply sublist_drop].
Qed.

(** With [skip = 0] and [limit] at least the number of sample records, the
    three methods return the whole sample list. *)
Theorem sample_methods_return_all
    (popular : list pyobj) (id : pyobj) (sort order : string) (limit : Z)
    (user_id : pyobj) :
  (Z.of_nat (length popular) ≤ limit)%Z →
  (call (MovieDAO.get_for_actor popular id sort order limit 0 user_id)).1
    = Returned popular ∧
  (call (MovieDAO.get_for_director popular id sort order limit 0 user_id)).1
    = Returned popular ∧
  (call (MovieDAO.get_similar_movies popular id limit 0 user_id)).1
    = Returned popular.
Proof.
  intros Hl.
  assert (py_slice popular 0 limit = popular) as Hall.
  { rewrite py_slice_nonneg by lia. rewrite drop_0. apply take_ge. lia. }
  unfold call, MovieDAO.get_for_actor, MovieDAO.get_for_director,
    MovieDAO.get_similar_movies. simpl. by rewrite Hall.
Qed.

Lemma sample_methods_return_all_witness :
  (call (MovieDAO.get_for_actor [PStr "a"; PStr "b"; PStr "c"]
           PNone "title" "ASC" 6 0 PNone)).1
    = Returned [PStr "a"; PStr "b"; PStr "c"] ∧
  (call (MovieDAO.get_for_director [PStr "a"; PStr "b"; PStr "c"]
           PNone "title" "ASC" 6 0 PNone)).1
    = Returned [PStr "a"; PStr "b"; PStr "c"] ∧
  (call (MovieDAO.get_similar_movies [PStr "a"; PStr "b"; PStr "c"]
           PNone 6 0 PNone)).1
    = Returned [PStr "a"; PStr "b"; PStr "c"].
Proof.
  apply (sample_methods_return_all [PStr "a"; PStr "b"; PStr "c"]
           PNone "title" "ASC" 6 PNone).
  simpl. lia.
Defined.

(** The bounds are positions, so consecutive index ranges join: for
    [0 <= a <= b <= c], the result for [skip = a, limit = b] followed by the
    result for [skip = b, limit = c] is the result for [skip = a, limit = c]. *)
Theorem sample_index_ranges_join
    (popular : list pyobj) (id : pyobj) (sort order : string) (a b c : Z)
    (user_id : pyobj) :
  (0 ≤ a)%Z → (a ≤ b)%Z → (b ≤ c)%Z →
  ∃ first second both,
    (call (MovieDAO.get_for_actor popular id sort order b a user_id)).1
      = Returned first ∧
    (call (MovieDAO.get_for_actor popular id sort order c b user_id)).1
      = Returned second ∧
    (call (MovieDAO.get_for_actor popular id sort order c a user_id)).1
      = Returned both ∧
    first ++ second = both.
Proof.
  intros Ha Hab Hbc.
  exists (py_slice popular a b), (py_slice popular b c), (py_slice popular a c).
  repeat split. rewrite !py_slice_nonneg by lia.
  replace (drop (Z.to_nat b) popular)
    with (drop (Z.to_nat b - Z.to_nat a) (drop (Z.to_nat a) popular))
    by (rewrite drop_drop; f_equal; lia).
  rewrite take_take_drop. f_equal. lia.
Qed.

Lemma sample_index_ranges_join_witness :
  ∃ first second both,
    (call (MovieDAO.get_for_actor [PStr "a"; PStr "b"; PStr "c"]
             PNone "title" "ASC" 1 0 PNone)).1 = Returned first ∧
    (call (MovieDAO.get_for_actor [PStr "a"; PStr "b"; PStr "c"]
             PNone "title" "ASC" 3 1 PNone)).1 = Returned second ∧
    (call (MovieDAO.get_for_actor [PStr "a"; PStr "b"; PStr "c"]
             PNone "title" "ASC" 3 0 PNone)).1 = Returned both ∧
    first ++ second = both.
Proof.
  apply (sample_index_ranges_join [PStr "a"; PStr "b"; PStr "c"]
           PNone "title" "ASC" 0 1 3 PNone); lia.
Defined.

(** ** [all] on a graph: which movies are returned *)

Section all_page.
Import Neo4j.
Context (vle : scalar → scalar → bool) (g : graph).

Lemma elem_of_page sort d limit skip (n : node) :
  n ∈ take limit (drop skip
        (order_by vle (prop sort) d
           (filter (λ m, has_label "Movie" m ∧ is_Some (prop sort m)) (nodes g)))) →
  n ∈ nodes g ∧ has_label "Movie" n ∧ is_Some (prop sort n).
Proof.
  intros Hn. apply subseteq_take, subseteq_drop in Hn.
  rewrite order_by_perm in Hn.
  by apply list_elem_of_filter in Hn as [[? ?] ?].
Qed.

Lemma value_to_py_none v : value_to_py v = PNone → v = None.
Proof. by destruct v as [[]|]. Qed.

Lemma bind_length_le {A B} (f : A → list B) (l : list A) :
  (∀ x, (length (f x) ≤ 1)%nat) → (length (l ≫= f) ≤ length l)%nat.
Proof.
  intros Hf. induction l as [|x l IH]; [done|].
  rewrite bind_cons, length_app. specialize (Hf x). simpl. lia.
Qed.
End all_page.

(** Every record [all] returns comes from a [Movie] node that has the
    [sort] attribute, and shows the stored value of every property of that
    node, the key [favorite] apart; a node without the attribute is never
    returned. *)
Theorem all_returns_movies_with_attribute
    (vle : Neo4j.scalar → Neo4j.scalar → bool) (g : Neo4j.graph)
    (sort order : string) (limit skip : Z) (user_id : pyobj) :
  Neo4j.no_backtick sort → order ∈ ["ASC"; "DESC"] →
  (0 ≤ limit)%Z → (0 ≤ skip)%Z →
  ∃ movies,
    (call (MovieDAO.all (mkDriver (Neo4j.graph_tx vle g)) sort order limit skip user_id)).1
      = Returned movies ∧
    ∀ r, r ∈ movies →
      ∃ m, m ∈ Neo4j.nodes g ∧ Neo4j.has_label "Movie" m ∧
           is_Some (Neo4j.prop sort m) ∧
           ∀ key, key ≠ "favorite" →
                  py_get key r = Neo4j.value_to_py (Neo4j.prop key m).
Proof.
  intros Hs Ho Hl Hk.
  destruct (get_user_favorites_returns vle g user_id []) as (favorites & log & Hf).
  eexists. split; [by eapply all_graph|].
  intros r (n & -> & Hn)%list_elem_of_fmap.
  apply elem_of_page in Hn as (? & ? & ?).
  exists n. repeat split; try done.
  intros key Hkey. by apply py_get_movie_projection.
Qed.

Lemma all_returns_movies_with_attribute_witness :
  ∃ movies,
    (call (MovieDAO.all Sample.driver "imdbRating" "ASC" 6 0 PNone)).1
      = Returned movies ∧
    ∀ r, r ∈ movies →
      ∃ m, m ∈ Neo4j.nodes Sample.store ∧ Neo4j.has_label "Movie" m ∧
           is_Some (Neo4j.prop "imdbRating" m) ∧
           ∀ key, key ≠ "favorite" →
                  py_get key r = Neo4j.value_to_py (Neo4j.prop key m).
Proof.
  apply (all_returns_movies_with_attribute Sample.vle Sample.store
           "imdbRating" "ASC" 6 0 PNone).
  - vm_compute. exact I.
  - apply list_elem_of_here.
  - lia.
  - lia.
Defined.

(** With [skip = 0] and [limit] at least the number of nodes, [all] leaves
    no match out: every [Movie] node that has the [sort] attribute has its
    record in the result. *)
Theorem all_returns_every_match
    (vle : Neo4j.scalar → Neo4j.scalar → bool) (g : Neo4j.graph)
    (sort order : string) (limit : Z) (user_id : pyobj) :
  Neo4j.no_backtick sort → order ∈ ["ASC"; "DESC"] →
  (Z.of_nat (length (Neo4j.nodes g)) ≤ limit)%Z →
  ∃ movies,
    (call (MovieDAO.all (mkDriver (Neo4j.graph_tx vle g)) sort order limit 0 user_id)).1
      = Returned movies ∧
    ∀ m, m ∈ Neo4j.nodes g → Neo4j.has_label "Movie" m →
         is_Some (Neo4j.prop sort m) →
         ∃ r, r ∈ movies ∧
              ∀ key, key ≠ "favorite" →
                     py_get key r = Neo4j.value_to_py (Neo4j.prop key m).
Proof.
  intros Hs Ho Hl.
  destruct (get_user_favorites_returns vle g user_id []) as (favorites & log & Hf).
  eexists. split; [eapply all_graph; [done|done|lia|lia|exact Hf]|].
  intros m Hin Hlabel Hattr.
  exists (Neo4j.movie_projection favorites m). split.
  - apply list_elem_of_fmap_2. change (Z.to_nat 0) with 0. rewrite drop_0.
    rewrite take_ge.
    + rewrite order_by_perm. by apply list_elem_of_filter.
    + rewrite order_by_perm.
      etrans; [apply length_filter|]. lia.
  - intros key Hkey. by apply py_get_movie_projection.
Qed.

Lemma all_returns_every_match_witness :
  ∃ movies,
    (call (MovieDAO.all Sample.driver "title" "DESC" 10 0 PNone)).1
      = Returned movies ∧
    ∀ m, m ∈ Neo4j.nodes Sample.store → Neo4j.has_label "Movie" m →
         is_Some (Neo4j.prop "title" m) →
         ∃ r, r ∈ movies ∧
              ∀ key, key ≠ "favorite" →
                     py_get key r = Neo4j.value_to_py (Neo4j.prop key m).
Proof.
  apply (all_returns_every_match Sample.vle Sample.store "title" "DESC" 10 PNone).
  - vm_compute. exact I.
  - apply list_elem_of_further, list_elem_of_here.
  - simpl. lia.
Defined.

(** A page past the end is empty, and so is a page of size zero: [all]
    returns the empty list when [limit = 0] or when [skip] is at least the
    number of nodes. *)
Theorem all_empty_page
    (vle : Neo4j.scalar → Neo4j.scalar → bool) (g : Neo4j.graph)
    (sort order : string) (limit skip : Z) (user_id : pyobj) :
  Neo4j.no_backtick sort → order ∈ ["ASC"; "DESC"] →
  (0 ≤ limit)%Z → (0 ≤ skip)%Z →
  limit = 0%Z ∨ (Z.of_nat (length (Neo4j.nodes g)) ≤ skip)%Z →
  (call (MovieDAO.all (mkDriver (Neo4j.graph_tx vle g)) sort order limit skip user_id)).1
  = Returned [].
Proof.
  intros Hs Ho Hl Hk Hempty.
  destruct (get_user_favorites_returns vle g user_id []) as (favorites & log & Hf).
  erewrite all_graph by done. f_equal.
  destruct Hempty as [->|Hskip]; [done|].
  rewrite drop_ge; [by rewrite take_nil|].
  rewrite order_by_perm. etrans; [apply length_filter|]. lia.
Qed.

Lemma all_empty_page_witness :
  (call (MovieDAO.all Sample.driver "title" "ASC" 6 10 (PStr "u1"))).1 = Returned [].
Proof.
  apply (all_empty_page Sample.vle Sample.store "title" "ASC" 6 10 (PStr "u1")).
  - vm_compute. exact I.
  - apply list_elem_of_here.
  - lia.
  - lia.
  - right. simpl. lia.
Defined.

(** The user changes nothing but the [favorite] flag: for two users, [all]
    returns lists of the same length whose records agree, position by
    position, on every key other than [favorite]. *)
Theorem all_user_changes_favorite_only
    (vle : Neo4j.scalar → Neo4j.scalar → bool) (g : Neo4j.graph)
    (sort order : string) (limit skip : Z) (user1 user2 : pyobj) (key : string) :
  Neo4j.no_backtick sort → order ∈ ["ASC"; "DESC"] →
  (0 ≤ limit)%Z → (0 ≤ skip)%Z → key ≠ "favorite" →
  ∃ movies1 movies2,
    (call (MovieDAO.all (mkDriver (Neo4j.graph_tx vle g)) sort order limit skip user1)).1
      = Returned movies1 ∧
    (call (MovieDAO.all (mkDriver (Neo4j.graph_tx vle g)) sort order limit skip user2)).1
      = Returned movies2 ∧
    length movies1 = length movies2 ∧
    py_get key <$> movies1 = py_get key <$> movies2.
Proof.
  intros Hs Ho Hl Hk Hkey.
  destruct (get_user_favorites_returns vle g user1 []) as (f1 & log1 & Hf1).
  destruct (get_user_favorites_returns vle g user2 []) as (f2 & log2 & Hf2).
  eexists _, _. split; [by eapply all_graph|]. split; [by eapply all_graph|].
  split; [by rewrite !length_fmap|].
  rewrite <-!list_fmap_compose. apply list_fmap_ext. intros i n _.
  unfold compose. by rewrite !py_get_movie_projection.
Qed.

Lemma all_user_changes_favorite_only_witness :
  ∃ movies1 movies2,
    (call (MovieDAO.all Sample.driver "title" "ASC" 6 0 (PStr "u1"))).1
      = Returned movies1 ∧
    (call (MovieDAO.all Sample.driver "title" "ASC" 6 0 PNone)).1
      = Returned movies2 ∧
    length movies1 = length movies2 ∧
    py_get "title" <$> movies1 = py_get "title" <$> movies2.
Proof.
  apply (all_user_changes_favorite_only Sample.vle Sample.store
           "title" "ASC" 6 0 (PStr "u1") PNone "title").
  - vm_compute. exact I.
  - apply list_elem_of_here.
  - lia.
  - lia.
  - discriminate.
Defined.

(** ** [all] on a graph: the [favorite] flag at the edges *)

(** A user to whom no [HAS_FAVORITE] relationship leads (a user the graph
    does not know, or one without favorites) gets the boolean false as
    [favorite] on every returned movie, on any graph. *)
Theorem all_user_without_favorites
    (vle : Neo4j.scalar → Neo4j.scalar → bool) (g : Neo4j.graph)
    (sort order : string) (limit skip : Z) (user_id : pyobj) :
  Neo4j.no_backtick sort → order ∈ ["ASC"; "DESC"] →
  (0 ≤ limit)%Z → (0 ≤ skip)%Z →
  (∀ m, ¬ Neo4j.has_favorite g user_id m) →
  ∃ movies,
    (call (MovieDAO.all (mkDriver (Neo4j.graph_tx vle g)) sort order limit skip user_id)).1
      = Returned movies ∧
    ∀ r, r ∈ movies → py_get "favorite" r = PBool false.
Proof.
  intros Hs Ho Hl Hk Hnone.
  destruct (get_user_favorites_returns vle g user_id []) as (favorites & log & Hf).
  assert (favorites = []) as ->.
  { destruct favorites as [|v l]; [done|]. exfalso.
    destruct (proj1 (get_user_favorites_elem vle g _ _ _ _ Hf v))
      as (_ & m & Hm & _); [apply list_elem_of_here|].
    by apply (Hnone m). }
  eexists. split; [by eapply all_graph|].
  intros r (n & -> & Hn)%list_elem_of_fmap. by rewrite py_get_favorite.
Qed.

Lemma all_user_without_favorites_witness :
  ∃ movies,
    (call (MovieDAO.all Sample.driver "title" "ASC" 6 0 (PStr "nobody"))).1
      = Returned movies ∧
    ∀ r, r ∈ movies → py_get "favorite" r = PBool false.
Proof.
  apply (all_user_without_favorites Sample.vle Sample.store
           "title" "ASC" 6 0 (PStr "nobody")).
  - vm_compute. exact I.
  - apply list_elem_of_here.
  - lia.
  - lia.
  - intros m Hm.
    assert ([("id", Neo4j.value_to_py (Neo4j.prop "tmdbId" m))]
            ∈ Neo4j.favorites_rows Sample.store (PStr "nobody")) as Hrow
      by (apply elem_of_favorites_rows; eauto).
    vm_compute in Hrow. by apply not_elem_of_nil in Hrow.
Defined.

(** The flag is not always a boolean: when the user has at least one
    favorite, a returned movie whose node has no [tmdbId] carries
    [favorite = None], since [null IN list] is [null] for a list that is not
    empty. *)
Theorem all_favorite_none_without_tmdbId
    (vle : Neo4j.scalar → Neo4j.scalar → bool) (g : Neo4j.graph)
    (sort order : string) (limit skip : Z) (user_id : pyobj) :
  Neo4j.no_backtick sort → order ∈ ["ASC"; "DESC"] →
  (0 ≤ limit)%Z → (0 ≤ skip)%Z →
  ∃ favorites movies,
    (call (MovieDAO.get_user_favorites (Neo4j.graph_tx vle g) user_id)).1
      = Returned favorites ∧
    (call (MovieDAO.all (mkDriver (Neo4j.graph_tx vle g)) sort order limit skip user_id)).1
      = Returned movies ∧
    (favorites ≠ [] →
     ∀ r, r ∈ movies → py_get "tmdbId" r = PNone → py_get "favorite" r = PNone).
Proof.
  intros Hs Ho Hl Hk.
  destruct (get_user_favorites_returns vle g user_id []) as (favorites & log & Hf).
  exists favorites. eexists. split; [unfold call; by rewrite Hf|].
  split; [by eapply all_graph|].
  intros Hne r (n & -> & Hn)%list_elem_of_fmap.
  rewrite py_get_movie_projection, py_get_favorite by done.
  intros ->%value_to_py_none. by destruct favorites.
Qed.

Lemma all_favorite_none_without_tmdbId_witness :
  ∃ favorites movies,
    (call (MovieDAO.get_user_favorites
             (Neo4j.graph_tx Sample.vle Sample.store_without_id) (PStr "u1"))).1
      = Returned favorites ∧
    (call (MovieDAO.all (mkDriver (Neo4j.graph_tx Sample.vle Sample.store_without_id))
             "title" "ASC" 6 0 (PStr "u1"))).1
      = Returned movies ∧
    favorites ≠ [] ∧
    (∀ r, r ∈ movies → py_get "tmdbId" r = PNone → py_get "favorite" r = PNone) ∧
    (∃ r, r ∈ movies ∧ py_get "tmdbId" r = PNone).
Proof.
  destruct (all_favorite_none_without_tmdbId Sample.vle Sample.store_without_id
              "title" "ASC" 6 0 (PStr "u1")) as (F & movies & HF & Hm & Hflag).
  - vm_compute. exact I.
  - apply list_elem_of_here.
  - lia.
  - lia.
  - exists F, movies. split; [exact HF|]. split; [exact Hm|].
    assert (F ≠ []) as HFne by (vm_compute in HF; injection HF as <-; discriminate).
    split; [exact HFne|]. split; [by apply Hflag|].
    erewrite all_graph in Hm;
      [|done|apply list_elem_of_here|lia|lia|reflexivity].
    injection Hm as <-.
    eexists. split; [apply list_elem_of_further, list_elem_of_here|].
    vm_compute. reflexivity.
Defined.

(** ** The genre listing: order, counts and number of records *)

(** The records of the listing are ordered by [name], ascending. *)
Theorem genre_listing_sorted_by_name
    (vle : Neo4j.scalar → Neo4j.scalar → bool) (g : Neo4j.graph) :
  (∀ a b, vle a b ∨ vle b a) →
  (∀ a b c, vle a b → vle b c → vle a c) →
  ∃ genres,
    (call (MovieDAO.get_by_genre_all (mkDriver (Neo4j.graph_tx vle g)))).1
      = Returned genres ∧
    StronglySorted (Neo4j.asc vle (Neo4j.field "name")) genres.
Proof.
  intros Htot Htrans. eexists. split; [apply get_by_genre_all_graph|].
  eapply StronglySorted_fmap; [|by apply order_by_asc].
  intros [g1 m1] [g2 m2]. unfold Neo4j.asc, Neo4j.field. cbn [fst snd].
  by rewrite !py_get_genre_name, !of_py_value_to_py.
Qed.

Lemma genre_listing_sorted_by_name_witness :
  ∃ genres,
    (call (MovieDAO.get_by_genre_all Sample.driver)).1 = Returned genres ∧
    StronglySorted (Neo4j.asc Sample.vle (Neo4j.field "name")) genres.
Proof.
  apply (genre_listing_sorted_by_name Sample.vle Sample.store).
  - apply sample_vle_total.
  - apply sample_vle_trans.
Defined.

(** Each record of the listing belongs to a [Genre] node of its own that
    the statement keeps: the genre nodes of the records, taken position by
    position, use no node of the graph more often than the graph lists it,
    so no genre node has two records.  The [movies] field of a record is
    the number of all member movies of its genre node, also of those
    without a rating or a poster, and is at least one. *)
Theorem genre_listing_counts
    (vle : Neo4j.scalar → Neo4j.scalar → bool) (g : Neo4j.graph) :
  ∃ genres sources,
    (call (MovieDAO.get_by_genre_all (mkDriver (Neo4j.graph_tx vle g)))).1
      = Returned genres ∧
    sources ⊆+ filter Neo4j.genre_kept (Neo4j.nodes g) ∧
    (NoDup (Neo4j.nodes g) → NoDup sources) ∧
    Forall2 (λ r genre,
               py_get "name" r = Neo4j.value_to_py (Neo4j.prop "name" genre) ∧
               py_get "movies" r
                 = PInt (Z.of_nat (length (Neo4j.genre_members g genre))) ∧
               (∀ m, m ∈ Neo4j.genre_members g genre ↔ Neo4j.in_genre g genre m) ∧
               (1 ≤ length (Neo4j.genre_members g genre))%nat)
            genres sources.
Proof.
  set (joined := genre ← filter Neo4j.genre_kept (Neo4j.nodes g);
                 m ← Neo4j.genre_poster_rows vle g genre;
                 [(genre, m)]).
  set (sorted := Neo4j.order_by vle (λ gm, Neo4j.prop "name" gm.1) false joined).
  assert (sorted.*1 ⊆+ filter Neo4j.genre_kept (Neo4j.nodes g)) as Hsub.
  { unfold sorted. rewrite order_by_perm. apply sublist_submseteq.
    apply joined_sources_sublist. }
  exists ((λ gm, Neo4j.genre_projection g gm.1 gm.2) <$> sorted), (sorted.*1).
  split; [apply get_by_genre_all_graph|]. split; [exact Hsub|]. split.
  - intros Hnodup. apply submseteq_Permutation in Hsub as [k Hk].
    apply (NoDup_filter Neo4j.genre_kept) in Hnodup.
    rewrite Hk in Hnodup. by apply NoDup_app in Hnodup as [? _].
  - apply Forall2_fmap, Forall_Forall2_diag, Forall_forall.
    intros [genre m] Hgm. cbn [fst snd].
    unfold sorted in Hgm. rewrite order_by_perm in Hgm.
    apply elem_of_joined in Hgm as (Hin & Hkept & Hm).
    split; [apply py_get_genre_name|].
    split; [|split; [intros m'; apply elem_of_genre_members|]].
    + unfold Neo4j.genre_projection, py_get.
      rewrite lookup_insert_ne by done. by rewrite lookup_insert_eq.
    + unfold Neo4j.genre_poster_rows in Hm.
      apply subseteq_take in Hm. rewrite order_by_perm in Hm.
      apply list_elem_of_filter in Hm as [_ Hm].
      destruct (Neo4j.genre_members g genre); [by apply not_elem_of_nil in Hm|].
      simpl. lia.
Qed.

(** ** A negative [skip] *)

(** A negative [skip] counts from the end of the sample list: with
    [skip = -k] for [0 < k <= len(popular)] and [limit] at least the length,
    the three methods return the last [k] sample records. *)
Theorem sample_negative_skip_returns_tail
    (popular : list pyobj) (id : pyobj) (sort order : string) (limit k : Z)
    (user_id : pyobj) :
  (0 < k)%Z → (k ≤ Z.of_nat (length popular))%Z →
  (Z.of_nat (length popular) ≤ limit)%Z →
  ∃ movies,
    (call (MovieDAO.get_for_actor popular id sort order limit (- k) user_id)).1
      = Returned movies ∧
    (call (MovieDAO.get_for_director popular id sort order limit (- k) user_id)).1
      = Returned movies ∧
    (call (MovieDAO.get_similar_movies popular id limit (- k) user_id)).1
      = Returned movies ∧
    movies = drop (length popular - Z.to_nat k) popular ∧
    Z.of_nat (length movies) = k.
Proof.
  intros Hk Hle Hl. exists (py_slice popular (- k) limit).
  assert (py_slice popular (- k) limit = drop (length popular - Z.to_nat k) popular)
    as Htail.
  { unfold py_slice, slice_bound.
    destruct (Z.ltb_spec (- k) 0); [|lia]. destruct (Z.ltb_spec limit 0); [lia|].
    rewrite Z.max_l, Z.min_r by lia.
    replace (Z.to_nat (- k + Z.of_nat (length popular)))
      with (length popular - Z.to_nat k) by lia.
    apply take_ge. rewrite length_drop. lia. }
  repeat split; [exact Htail|].
  rewrite Htail, length_drop. lia.
Qed.

Lemma sample_negative_skip_returns_tail_witness :
  ∃ movies,
    (call (MovieDAO.get_for_actor [PStr "a"; PStr "b"; PStr "c"]
             PNone "title" "ASC" 6 (- 2) PNone)).1 = Returned movies ∧
    (call (MovieDAO.get_for_director [PStr "a"; PStr "b"; PStr "c"]
             PNone "title" "ASC" 6 (- 2) PNone)).1 = Returned movies ∧
    (call (MovieDAO.get_similar_movies [PStr "a"; PStr "b"; PStr "c"]
             PNone 6 (- 2) PNone)).1 = Returned movies ∧
    movies = drop (length [PStr "a"; PStr "b"; PStr "c"] - Z.to_nat 2)
               [PStr "a"; PStr "b"; PStr "c"] ∧
    Z.of_nat (length movies) = 2%Z.
Proof.
  apply (sample_negative_skip_returns_tail [PStr "a"; PStr "b"; PStr "c"]
           PNone "title" "ASC" 6 2 PNone); simpl; lia.
Defined.
